(** * IBBroker: order-lifecycle reconciliation (ibapi_wrapper/ibbroker.py)

    A shallow embedding of the event handlers of [IBBroker] and of the
    order record they drive, with the properties of the reconciliation
    engine stated over it.

    Conventions of the embedding:
    - the dictionaries [orderbyid], [executions] and [ordstatus] are finite
      maps; [ordstatus] is a [collections.defaultdict(dict)], so reading
      [ordstatus[oid]] of an absent [oid] inserts an empty inner ledger;
    - orders are mutable objects held in [orderbyid]; a mutation of the object
      is a replacement of the value stored under the key it was found at;
      [notify] stores a clone, i.e. the value at the time of the call;
    - share quantities ([filled], [cumQty], [shares]) are whole numbers (Z);
      prices, commissions and the sizes handed to the position are Python
      floats, i.e. IEEE-754 binary64 ([PrimFloat.float]);
    - handlers that cannot raise are functions [Broker -> Broker]; code that
      can raise lives in the state-and-exception monad [M], whose outcome
      keeps the state reached when the exception was raised (Python does not
      roll back);
    - calls to the logger, to [print], to the gateway and to the order store
      are recorded, in order, in the [trace] of the state. *)

From Stdlib Require Import Floats ZArith Ascii String.
From stdpp Require Import gmap strings list.

Local Open Scope Z_scope.

(** ** Data model *)

(** Statuses of an order record ([OrderBase.Status], as far as the engine and
    its specification use them). *)
Inductive OrdStatus :=
  | Created | Submitted | Accepted | Partial
  | Completed | Cancelled | Expired | Rejected.

#[global] Instance OrdStatus_eq_dec : EqDecision OrdStatus.
Proof. solve_decision. Defined.

(** [class IBCommInfo(CommInfoBase)] *)
Record IBCommInfo := { mult : float; stocklike : bool }.

(** [order.data]: the data feed of the order and its trade contract. *)
Record DataFeed := { dataname : string; tradecontract : Z }.

(** One call of [order.execute], with the arguments it was given. *)
Record ExecBit := {
  eb_dt : float; eb_size : float; eb_price : float;
  eb_closed : float; eb_closedvalue : float; eb_closedcomm : float;
  eb_opened : float; eb_openedvalue : float; eb_openedcomm : float;
  eb_margin : float; eb_pnl : float;
  eb_psize : float; eb_pprice : float }.

(** [class IBOrder(OrderBase, ibapi.order.Order)] *)
Record IBOrder := {
  orderId : Z;
  permId : string;
  clientId : Z;
  status : OrdStatus;
  _willexpire : bool;
  comminfo : option IBCommInfo;
  data : DataFeed;
  executed : list ExecBit }.

Definition set_status (st : OrdStatus) (o : IBOrder) : IBOrder :=
  {| orderId := orderId o; permId := permId o; clientId := clientId o;
     status := st; _willexpire := _willexpire o; comminfo := comminfo o;
     data := data o; executed := executed o |}.

Definition add_executed (b : ExecBit) (o : IBOrder) : IBOrder :=
  {| orderId := orderId o; permId := permId o; clientId := clientId o;
     status := status o; _willexpire := _willexpire o; comminfo := comminfo o;
     data := data o; executed := executed o ++ [b] |}.

(** Modelled from the spec: the transition methods of the order record
    ([OrderBase.accept], [cancel], [expire], [reject], [partial],
    [completed], [alive], [clone] and [execute] come from the backtrader
    base class, which is not part of the sources).  Each transition moves the
    record to the status it is named after; the guards of the state machine
    are those of the engine, not of the record.  [alive] is "not in a
    terminal state"; [execute] applies the fill to the record, which keeps
    the figures it was given; [clone] is a copy of the record. *)
Module OrderBase.
Definition accept (o : IBOrder) : IBOrder := set_status Accepted o.
Definition cancel (o : IBOrder) : IBOrder := set_status Cancelled o.
Definition expire (o : IBOrder) : IBOrder := set_status Expired o.
Definition reject (o : IBOrder) : IBOrder := set_status Rejected o.
Definition partial (o : IBOrder) : IBOrder := set_status Partial o.
Definition completed (o : IBOrder) : IBOrder := set_status Completed o.
Definition submit (o : IBOrder) : IBOrder := set_status Submitted o.
Definition clone (o : IBOrder) : IBOrder := o.
Definition execute (b : ExecBit) (o : IBOrder) : IBOrder := add_executed b o.
End OrderBase.

(** The terminal statuses of the state machine. *)
Definition terminal (st : OrdStatus) : bool :=
  match st with
  | Completed | Cancelled | Expired | Rejected => true
  | _ => false
  end.

(** Modelled from the spec: [OrderBase.alive] (backtrader), "still alive (not
    in a terminal state)". *)
Definition alive (o : IBOrder) : bool := negb (terminal (status o)).

(** Order-status event of the gateway. *)
Record OrderStatusMsg := {
  msg_orderId : Z;
  msg_status : string;
  msg_filled : Z }.

(** Numbered error event of the gateway; [err_id] is absent when the message
    carries no [id] attribute. *)
Record ErrorMsg := { err_id : option Z; errorCode : Z }.

(** Execution record. *)
Record Execution := {
  execId : string;
  ex_orderId : Z;
  side : string;
  shares : Z;
  ex_price : float;
  cumQty : Z;
  time : option string }.

(** Commission report. *)
Record CommissionReport := {
  cr_execId : string;
  commission : float;
  realizedPNL : float }.

(** Open-order snapshot: [msg.orderId], [msg.contract.symbol], the fields of
    [msg.order] that are read, and [msg.orderState.status]. *)
Record OpenOrderMsg := {
  oo_orderId : Z;
  oo_symbol : string;
  oo_action : string;
  oo_orderType : string;
  oo_goodTillDate : string;
  oo_tradeid : Z;
  oo_clientId : Z;
  oo_permId : string;
  oo_status : string }.

(** [backtrader.position.Position]: size and average price. *)
Record Position := { pos_size : float; pos_price : float }.

(** Exceptions the modelled code can raise. *)
Inductive Exn :=
  | KeyError | IndexError | ZeroDivisionError | AttributeError
  | ValueError | TypeError | OverflowError
  | OtherError (what : string).

(** Observable calls to the collaborators, in the order they happen. *)
Inductive Effect :=
  | LogException (e : Exn)          (* logger.exception *)
  | LogInfo (what : string)         (* logger.info *)
  | PrintError (what : string) (oid : Z)  (* print("ERROR: ...") *)
  | StoreRead (path : string)       (* os.path.exists / open of the order store *)
  | GwCancelOrder (oid : Z)         (* self.ib.cancelOrder *)
  | GwPlaceOrder (oid : Z).         (* self.ib.placeOrder *)

(** The engine state: the attributes of [IBBroker] set up by [__init__],
    the positions kept by the store ([self.ib]), and the trace. *)
Record Broker := {
  orderbyid : gmap Z IBOrder;
  executions : gmap string Execution;
  ordstatus : gmap Z (gmap Z OrderStatusMsg);
  notifs : list (option IBOrder);
  tonotify : list Z;
  opened_orders : list (option OpenOrderMsg);
  positions : gmap Z Position;
  trace : list Effect }.

(** [IBBroker.__init__] *)
Definition init : Broker :=
  {| orderbyid := ∅; executions := ∅; ordstatus := ∅; notifs := [];
     tonotify := []; opened_orders := []; positions := ∅; trace := [] |}.

Definition set_orderbyid (m : gmap Z IBOrder) (s : Broker) : Broker :=
  {| orderbyid := m; executions := executions s; ordstatus := ordstatus s;
     notifs := notifs s; tonotify := tonotify s;
     opened_orders := opened_orders s; positions := positions s;
     trace := trace s |}.

Definition set_executions (m : gmap string Execution) (s : Broker) : Broker :=
  {| orderbyid := orderbyid s; executions := m; ordstatus := ordstatus s;
     notifs := notifs s; tonotify := tonotify s;
     opened_orders := opened_orders s; positions := positions s;
     trace := trace s |}.

Definition set_ordstatus (m : gmap Z (gmap Z OrderStatusMsg)) (s : Broker)
  : Broker :=
  {| orderbyid := orderbyid s; executions := executions s; ordstatus := m;
     notifs := notifs s; tonotify := tonotify s;
     opened_orders := opened_orders s; positions := positions s;
     trace := trace s |}.

Definition set_notifs (l : list (option IBOrder)) (s : Broker) : Broker :=
  {| orderbyid := orderbyid s; executions := executions s;
     ordstatus := ordstatus s; notifs := l; tonotify := tonotify s;
     opened_orders := opened_orders s; positions := positions s;
     trace := trace s |}.

Definition set_tonotify (l : list Z) (s : Broker) : Broker :=
  {| orderbyid := orderbyid s; executions := executions s;
     ordstatus := ordstatus s; notifs := notifs s; tonotify := l;
     opened_orders := opened_orders s; positions := positions s;
     trace := trace s |}.

Definition set_opened_orders (l : list (option OpenOrderMsg)) (s : Broker)
  : Broker :=
  {| orderbyid := orderbyid s; executions := executions s;
     ordstatus := ordstatus s; notifs := notifs s; tonotify := tonotify s;
     opened_orders := l; positions := positions s; trace := trace s |}.

Definition set_positions (m : gmap Z Position) (s : Broker) : Broker :=
  {| orderbyid := orderbyid s; executions := executions s;
     ordstatus := ordstatus s; notifs := notifs s; tonotify := tonotify s;
     opened_orders := opened_orders s; positions := m; trace := trace s |}.

Definition emit (e : Effect) (s : Broker) : Broker :=
  {| orderbyid := orderbyid s; executions := executions s;
     ordstatus := ordstatus s; notifs := notifs s; tonotify := tonotify s;
     opened_orders := opened_orders s; positions := positions s;
     trace := trace s ++ [e] |}.

(** The order object found under [oid] has been mutated into [o]. *)
Definition store_order (oid : Z) (o : IBOrder) (s : Broker) : Broker :=
  set_orderbyid (<[oid := o]> (orderbyid s)) s.

(** [IBBroker.notify]: [self.notifs.put(order.clone())] *)
Definition notify (order : IBOrder) (s : Broker) : Broker :=
  set_notifs (notifs s ++ [Some (OrderBase.clone order)]) s.

(** ** Status transition engine *)

Definition SUBMITTED : string := "Submitted".
Definition FILLED : string := "Filled".
Definition CANCELLED : string := "Cancelled".
Definition INACTIVE : string := "Inactive".
Definition PENDINGSUBMIT : string := "PendingSubmit".
Definition PENDINGCANCEL : string := "PendingCancel".
Definition PRESUBMITTED : string := "PreSubmitted".
Definition APICANCELLED : string := "ApiCancelled".

(** [self.ordstatus[oid][filled] = msg] on a [defaultdict(dict)] *)
Definition record_status (msg : OrderStatusMsg) (s : Broker) : Broker :=
  let oid := msg_orderId msg in
  let inner := default ∅ (ordstatus s !! oid) in
  set_ordstatus (<[oid := <[msg_filled msg := msg]> inner]> (ordstatus s)) s.

(** [IBBroker.push_orderstatus] *)
Definition push_orderstatus (msg : OrderStatusMsg) (s : Broker) : Broker :=
  match orderbyid s !! msg_orderId msg with
  | None => s (* not found, it was not an order *)
  | Some order =>
    if String.eqb (msg_status msg) SUBMITTED && (msg_filled msg =? 0) then
      if bool_decide (status order = Accepted) then s
      else
        let order := OrderBase.accept order in
        notify order (store_order (msg_orderId msg) order s)
    else if String.eqb (msg_status msg) CANCELLED
            || String.eqb (msg_status msg) APICANCELLED then
      if bool_decide (status order = Cancelled)
         || bool_decide (status order = Expired) then s
      else
        let order := if _willexpire order then OrderBase.expire order
                     else OrderBase.cancel order in
        notify order (store_order (msg_orderId msg) order s)
    else if String.eqb (msg_status msg) PENDINGCANCEL then
      if bool_decide (status order = Cancelled) then s else s
    else if String.eqb (msg_status msg) INACTIVE then
      if bool_decide (status order = Rejected) then s
      else
        let order := OrderBase.reject order in
        notify order (store_order (msg_orderId msg) order s)
    else if String.eqb (msg_status msg) SUBMITTED
            || String.eqb (msg_status msg) FILLED then
      record_status msg s
    else if String.eqb (msg_status msg) PENDINGSUBMIT
            || String.eqb (msg_status msg) PRESUBMITTED then
      if negb (msg_filled msg =? 0) then record_status msg s else s
    else s (* unknown status *)
  end.

(** [IBBroker.push_ordererror] *)
Definition push_ordererror (msg : ErrorMsg) (s : Broker) : Broker :=
  match err_id msg with
  | None => s (* AttributeError: no id in error *)
  | Some id =>
    match orderbyid s !! id with
    | None => s (* KeyError: no order *)
    | Some order =>
      if errorCode msg =? 202 then
        if negb (alive order) then s
        else
          let order := OrderBase.cancel order in
          notify order (store_order id order s)
      else if errorCode msg =? 201 then
        if bool_decide (status order = Rejected) then s
        else
          let order := OrderBase.reject order in
          notify order (store_order id order s)
      else
        let order := OrderBase.reject order in
        notify order (store_order id order s)
    end
  end.

(** [IBBroker.push_execution] *)
Definition push_execution (ex : Execution) (s : Broker) : Broker :=
  set_executions (<[execId ex := ex]> (executions s)) s.

(** [IBBroker.cancel]: the request is forwarded to the gateway unless the
    order is not tracked or the order handed in is already Cancelled. *)
Definition cancel (order : IBOrder) (s : Broker) : Broker :=
  match orderbyid s !! orderId order with
  | None => s (* not found ... not cancellable *)
  | Some o =>
    if bool_decide (status order = Cancelled) then s (* already cancelled *)
    else emit (GwCancelOrder (orderId order)) s
  end.

(** [IBBroker.orderstatus] *)
Definition orderstatus (order : IBOrder) (s : Broker) : OrdStatus :=
  match orderbyid s !! orderId order with
  | None => status order
  | Some o => status o
  end.

(** [IBBroker.push_openorder]; [None] is the end-of-snapshots sentinel. *)
Definition push_openorder (msg : option OpenOrderMsg) (s : Broker) : Broker :=
  match msg with
  | None => set_opened_orders (opened_orders s ++ [None]) s
  | Some m =>
    let has_order := bool_decide (is_Some (orderbyid s !! oo_orderId m)) in
    if has_order then s
    else set_opened_orders (opened_orders s ++ [Some m]) s
  end.

(** [IBBroker.get_notification]: non-blocking read of the queue; the inner
    [None] is the cycle-boundary marker, the outer one "queue empty". *)
Definition get_notification (s : Broker)
  : option (option IBOrder) * Broker :=
  match notifs s with
  | [] => (None, s)
  | n :: rest => (Some n, set_notifs rest s)
  end.

(** ** Code that can raise: state and exception *)

Inductive Outcome (A : Type) :=
  | Returns (a : A) (s : Broker)
  | Raises (e : Exn) (s : Broker).
Arguments Returns {A} a s.
Arguments Raises {A} e s.

Definition M (A : Type) : Type := Broker -> Outcome A.

Definition ret {A} (a : A) : M A := fun s => Returns a s.

Definition bind {A B} (m : M A) (k : A -> M B) : M B :=
  fun s => match m s with
           | Returns a s' => k a s'
           | Raises e s' => Raises e s'
           end.

Definition raise {A} (e : Exn) : M A := fun s => Raises e s.

Definition gets {A} (f : Broker -> A) : M A := fun s => Returns (f s) s.

Definition modify (f : Broker -> Broker) : M unit :=
  fun s => Returns tt (f s).

(** The result of a call that either raises or returns. *)
Definition call {A} (r : Exn + A) : M A :=
  match r with inl e => raise e | inr a => ret a end.

(** [d[k]] of a dictionary read. *)
Definition subscript {A} (r : option A) : M A :=
  match r with None => raise KeyError | Some a => ret a end.

Notation "x <- c1 ;; c2" := (bind c1 (fun x => c2))
  (at level 100, c1 at next level, right associativity).
Notation "c1 ;;; c2" := (bind c1 (fun _ => c2))
  (at level 100, right associativity).

(** The final state of an outcome, whichever way the code was left. *)
Definition final {A} (o : Outcome A) : Broker :=
  match o with Returns _ s => s | Raises _ s => s end.

(** [try: body except Exception as e: handler(e)] *)
Definition try_except (body : M unit) (handler : Exn -> M unit) : M unit :=
  fun s => match body s with
           | Returns _ s' => Returns tt s'
           | Raises e s' => handler e s'
           end.

(** ** Python numbers *)

(** [float(n)] of an integer: the nearest binary64 value, or OverflowError
    when the integer is out of range. *)
Definition float_of_Z (n : Z) : Exn + float :=
  match binary_normalize prec emax n 0 false with
  | S754_infinity _ => inl OverflowError
  | sf => inr (SF2Prim sf)
  end.

(** [closedcomm = comm * float(closed) / float(size)] and
    [openedcomm = comm - closedcomm], on Python floats; a float division by
    zero raises. *)
Definition split_commission (comm closed size : float)
  : Exn + (float * float) :=
  if PrimFloat.eqb size 0 then inl ZeroDivisionError
  else
    let closedcomm := (comm * closed / size)%float in
    let openedcomm := (comm - closedcomm)%float in
    inr (closedcomm, openedcomm).

(** [IBCommInfo.getoperationcost]: [abs(float(size)) * float(price)] *)
Definition getoperationcost (ci : IBCommInfo) (size price : float) : float :=
  (PrimFloat.abs size * price)%float.

(** [IBCommInfo.getvaluesize]: [abs(size) * price] *)
Definition getvaluesize (ci : IBCommInfo) (size price : float) : float :=
  (PrimFloat.abs size * price)%float.

(** [s.split(sep)] for a one-character separator. *)
Fixpoint split_on (sep : ascii) (s : string) : list string :=
  match s with
  | EmptyString => [EmptyString]
  | String c rest =>
    match split_on sep rest with
    | [] => [String c EmptyString]
    | w :: ws =>
      if Ascii.eqb c sep then EmptyString :: w :: ws else String c w :: ws
    end
  end.

(** ** The order types of the constructor *)

(** The execution types of backtrader that [IBOrder] maps to IB order
    types. *)
Inductive ExecType :=
  | Market | Close | Limit | Stop | StopLimit | StopTrail | StopTrailLimit.

(** What [self.exectype] can hold when the constructor runs: [None], an
    execution type, or the text it was given in its place. *)
Inductive ExecKey :=
  | ExecNone
  | ExecCode (t : ExecType)
  | ExecText (text : string).

(** [IBOrder._IBOrdTypes]: the keys are [None] and seven execution types; a
    text is not among them. *)
Definition _IBOrdTypes (exectype : ExecKey) : option string :=
  match exectype with
  | ExecNone => Some "MKT" (* default *)
  | ExecCode Market => Some "MKT"
  | ExecCode Limit => Some "LMT"
  | ExecCode Close => Some "MOC"
  | ExecCode Stop => Some "STP"
  | ExecCode StopLimit => Some "STPLMT"
  | ExecCode StopTrail => Some "TRAIL"
  | ExecCode StopTrailLimit => Some "TRAIL LIMIT"
  | ExecText _ => None
  end.

(** ** Collaborators *)

(** Persisted order metadata, as the order store returns it. *)
Record OrderData := {
  od_order_id : Z;
  od_dataname : string;
  od_stratname : string;
  od_size : Z;
  od_price : float;
  od_pricelimit : float }.

(** What the engine calls but does not own: the gateway's client id, the
    position arithmetic of the position tracker, the clock parsing
    ([date2num(datetime.strptime(text, format))]), the data feed
    ([order.data.close[0]]), the files below [save_path], the lookups of
    cerebro, and the two parts of the construction of a rebuilt [IBOrder]
    that are not the engine's: [OrderBase_init], the construction by the base
    classes (the parameter handling and [OrderBase.__init__] of backtrader,
    [ibapi.order.Order.__init__]), which yields the order object or raises,
    and [IBOrder_fields], what [IBOrder.__init__] does after the lookup of
    the order type (prices, quantity, time in force with the clock and time
    zone of the data feed, the remaining keyword arguments). *)
Record Collaborators := {
  ib_clientId : Z;
  position_update :
    Position -> float -> float -> Position * (float * float);
  strptime_date2num : option string -> string -> Exn + float;
  close0 : DataFeed -> Exn + float;
  save_path : string;
  files : gmap string OrderData;
  getdatabyname : string -> Exn + DataFeed;
  getstratbyname : string -> Exn + Z;
  OrderBase_init :
    OpenOrderMsg -> OrderData -> DataFeed -> Z -> Exn + IBOrder;
  IBOrder_fields : string -> IBOrder -> Exn + IBOrder }.

(** Modelled from the spec: the position of an instrument that was never
    traded is flat ([IBStore.getposition] is not part of the sources). *)
Definition flat : Position := {| pos_size := 0; pos_price := 0 |}.

Section Engine.
Context (env : Collaborators).

(** [IBBroker.getposition] with [clone=False]: the position object of the
    store, found by the trade contract of the data feed. *)
Definition getposition (d : DataFeed) : M Position :=
  position <- gets (fun s => default flat (positions s !! tradecontract d)) ;;
  modify (emit (LogInfo "getposition")) ;;;
  ret position.

(** [self.executions.pop(execId)] *)
Definition pop_execution (k : string) : M Execution :=
  fun s => match executions s !! k with
           | None => Raises KeyError s
           | Some ex => Returns ex (set_executions (delete k (executions s)) s)
           end.

(** [self.ordstatus[oid].pop(q)]: the [defaultdict] first makes sure an inner
    ledger exists for [oid], then the entry is popped from it. *)
Definition pop_ordstatus (oid q : Z) : M OrderStatusMsg :=
  fun s =>
    let inner := default ∅ (ordstatus s !! oid) in
    match inner !! q with
    | None => Raises KeyError (set_ordstatus (<[oid := inner]> (ordstatus s)) s)
    | Some m =>
      Returns m (set_ordstatus (<[oid := delete q inner]> (ordstatus s)) s)
    end.

(** [self.ordstatus.pop(oid)] *)
Definition pop_ledger (oid : Z) : M unit :=
  fun s => match ordstatus s !! oid with
           | None => Raises KeyError s
           | Some _ => Returns tt (set_ordstatus (delete oid (ordstatus s)) s)
           end.

(** The timestamp of an execution: the trailing zone token is dropped when
    there is one, else the text is parsed with a weekday. *)
Definition execution_time (t : option string) : M float :=
  let dt_array := match t with None => [] | Some t => split_on " "%char t end in
  if (1 <? length dt_array)%nat then
    let ex_time := String.concat " " (removelast dt_array) in
    call (strptime_date2num env (Some ex_time) "%Y%m%d %H:%M:%S")
  else call (strptime_date2num env t "%Y%m%d %H:%M:%S %A").

(** The body of the [try] of [push_commissionreport]. *)
Definition reconcile (cr : CommissionReport) : M unit :=
  ex <- pop_execution (cr_execId cr) ;;
  let oid := ex_orderId ex in
  order <- bind (gets (fun s => orderbyid s !! oid)) subscript ;;
  ostatus <- pop_ordstatus oid (cumQty ex) ;;
  position <- getposition (data order) ;;
  let pprice_orig := pos_price position in
  c <- call (match side ex with
             | EmptyString => inl IndexError
             | String c _ => inr c
             end) ;;
  let size := if Ascii.eqb c "B"%char then shares ex else - shares ex in
  let price := ex_price ex in
  fsize <- call (float_of_Z size) ;;
  let updated := position_update env position fsize price in
  let opened := fst (snd updated) in
  let closed := snd (snd updated) in
  modify (fun s => set_positions
            (<[tradecontract (data order) := fst updated]> (positions s)) s) ;;;
  let psize := pos_size (fst updated) in
  let pprice := pos_price (fst updated) in
  (* split commission between closed and opened *)
  let comm := commission cr in
  comms <- call (split_commission comm closed fsize) ;;
  let closedcomm := fst comms in
  let openedcomm := snd comms in
  ci <- call (match comminfo order with
              | None => inl AttributeError
              | Some ci => inr ci
              end) ;;
  let closedvalue := getoperationcost ci closed pprice_orig in
  let openedvalue := getoperationcost ci opened price in
  let pnl := if PrimFloat.eqb closed 0%float then 0%float
             else realizedPNL cr in
  dt <- execution_time (time ex) ;;
  margin <- call (close0 env (data order)) ;;
  let order := OrderBase.execute
    {| eb_dt := dt; eb_size := fsize; eb_price := price;
       eb_closed := closed; eb_closedvalue := closedvalue;
       eb_closedcomm := closedcomm;
       eb_opened := opened; eb_openedvalue := openedvalue;
       eb_openedcomm := openedcomm;
       eb_margin := margin; eb_pnl := pnl;
       eb_psize := psize; eb_pprice := pprice |} order in
  modify (store_order oid order) ;;;
  (if String.eqb (msg_status ostatus) FILLED then
     modify (store_order oid (OrderBase.completed order)) ;;;
     pop_ledger oid (* nothing left to be reported *)
   else
     modify (store_order oid (OrderBase.partial order))) ;;;
  modify (fun s => if bool_decide (oid ∈ tonotify s) then s
                   else set_tonotify (tonotify s ++ [oid]) s).

(** [IBBroker.push_commissionreport] *)
Definition push_commissionreport (cr : CommissionReport) : M unit :=
  try_except (reconcile cr) (fun e => modify (emit (LogException e))).

(** The loop of [push_portupdate] over the pending identifiers: pop the
    leftmost one, look the order up, notify it. *)
Fixpoint drain (pending : list Z) : M unit :=
  match pending with
  | [] => ret tt
  | oid :: rest =>
    modify (set_tonotify rest) ;;;
    order <- bind (gets (fun s => orderbyid s !! oid)) subscript ;;
    modify (notify order) ;;;
    drain rest
  end.

(** [IBBroker.push_portupdate] *)
Definition push_portupdate : M unit :=
  fun s => drain (tonotify s) s.

(** [IBOrder.__init__] with [exectype] as given by the caller: the expiry
    mark is unset, the base classes construct the object ([base] is what
    they yield), the order type is [self._IBOrdTypes[self.exectype]], a
    KeyError when [exectype] is no key, and the IB fields are filled. *)
Definition IBOrder_init (exectype : ExecKey) (base : Exn + IBOrder)
  : Exn + IBOrder :=
  match base with
  | inl e => inl e
  | inr order =>
    match _IBOrdTypes exectype with
    | None => inl KeyError
    | Some orderType =>
      IBOrder_fields env orderType
        {| orderId := orderId order; permId := permId order;
           clientId := clientId order; status := status order;
           _willexpire := false; comminfo := comminfo order;
           data := data order; executed := executed order |}
    end
  end.

(** [IBBroker._load_order] *)
Definition _load_order (perm_id : string) : M (option OrderData) :=
  let path := (save_path env +:+ "/" +:+ perm_id +:+ ".json")%string in
  modify (emit (StoreRead path)) ;;;
  ret (files env !! path).

(** [IBBroker.rebuild_iborder_from_open_order] *)
Definition rebuild_iborder_from_open_order (msg : OpenOrderMsg) : M unit :=
  let order_id := oo_orderId msg in
  let client_id := oo_clientId msg in
  let perm_id := oo_permId msg in
  (* check the order data *)
  if negb (client_id =? ib_clientId env) then ret tt
  else
    order_data <- _load_order perm_id ;;
    match order_data with
    | None =>
      modify (emit (PrintError "Cannot load order data from file" order_id))
    | Some od =>
      if negb (od_order_id od =? order_id) then
        modify (emit (PrintError "order data wrong" order_id))
      else
        data <- call (getdatabyname env (od_dataname od)) ;;
        owner <- call (getstratbyname env (od_stratname od)) ;;
        ib_order <- call (IBOrder_init (ExecText (oo_orderType msg))
                           (OrderBase_init env msg od data owner)) ;;
        modify (store_order order_id ib_order) ;;;
        modify (notify ib_order)
    end.

(** [IBBroker.submit] of an order object that is not in the order table yet;
    [oco] is the order identifier of [order.oco], whose OCA group is read
    from the order table. *)
Definition submit (order : IBOrder) (oco : option Z) : M IBOrder :=
  let order := OrderBase.submit order in
  match oco with
   | None => ret tt
   | Some k => bind (gets (fun s => orderbyid s !! k)) subscript ;;; ret tt
   end ;;;
  modify (store_order (orderId order) order) ;;;
  modify (emit (GwPlaceOrder (orderId order))) ;;;
  modify (notify order) ;;;
  ret order.

End Engine.

(** ** The engine as a transition system *)

(** What can happen to the engine: the callbacks of the gateway and the calls
    of the strategy layer.  [IBBroker.next] waits on the queue the gateway
    thread feeds and is not an event of its own; the work it does for each
    snapshot it takes from the queue is [OpenOrderRebuild]. *)
Inductive Event :=
  | OrderStatus (msg : OrderStatusMsg)
  | OrderError (msg : ErrorMsg)
  | ExecDetails (ex : Execution)
  | CommissionRep (cr : CommissionReport)
  | PortUpdate
  | OpenOrder (msg : option OpenOrderMsg)
  | OpenOrderRebuild (msg : OpenOrderMsg)
  | Cancel (order : IBOrder)
  | Submit (order : IBOrder) (oco : option Z)
  | GetNotification.

Definition handle (env : Collaborators) (ev : Event) : M unit :=
  match ev with
  | OrderStatus msg => modify (push_orderstatus msg)
  | OrderError msg => modify (push_ordererror msg)
  | ExecDetails ex => modify (push_execution ex)
  | CommissionRep cr => push_commissionreport env cr
  | PortUpdate => push_portupdate
  | OpenOrder msg => modify (push_openorder msg)
  | OpenOrderRebuild msg => rebuild_iborder_from_open_order env msg
  | Cancel order => modify (cancel order)
  | Submit order oco => submit order oco ;;; ret tt
  | GetNotification => modify (fun s => snd (get_notification s))
  end.

(** One event; an exception leaves the handler but the state it reached
    stays. *)
Definition step (env : Collaborators) (s : Broker) (ev : Event) : Broker :=
  final (handle env ev s).

Definition run (env : Collaborators) (evs : list Event) (s : Broker)
  : Broker :=
  fold_left (step env) evs s.

(** The inbound events of the status transition engine ([push_orderstatus]
    and [push_ordererror]) that leave an order of terminal status [st],
    tracked under [oid], in that status: everything addressed to another
    order; of the status events for [oid], all but SUBMITTED with nothing
    filled, CANCELLED/APICANCELLED unless [st] is Cancelled or Expired, and
    INACTIVE unless [st] is Rejected; of the error events for [oid], code 202,
    and every code when [st] is Rejected. *)
Definition keeps_status (st : OrdStatus) (oid : Z) (ev : Event) : bool :=
  match ev with
  | OrderStatus msg =>
    if msg_orderId msg =? oid then
      if String.eqb (msg_status msg) SUBMITTED && (msg_filled msg =? 0)
      then false
      else if String.eqb (msg_status msg) CANCELLED
              || String.eqb (msg_status msg) APICANCELLED
      then bool_decide (st = Cancelled) || bool_decide (st = Expired)
      else if String.eqb (msg_status msg) PENDINGCANCEL then true
      else if String.eqb (msg_status msg) INACTIVE
      then bool_decide (st = Rejected)
      else true
    else true
  | OrderError msg =>
    match err_id msg with
    | None => true
    | Some id =>
      if id =? oid then
        (errorCode msg =? 202) || bool_decide (st = Rejected)
      else true
    end
  | _ => false
  end.

(** An order-status event CANCELLED or APICANCELLED for the order [oid]. *)
Definition is_cancel_for (oid : Z) (ev : Event) : bool :=
  match ev with
  | OrderStatus msg =>
    (msg_orderId msg =? oid)
    && (String.eqb (msg_status msg) CANCELLED
        || String.eqb (msg_status msg) APICANCELLED)
  | _ => false
  end.

(** Every pending identifier is a tracked order, and none is pending twice. *)
Definition pending_ok (s : Broker) : Prop :=
  NoDup (tonotify s)
  /\ Forall (fun oid => is_Some (orderbyid s !! oid)) (tonotify s).

(** ** Sample data *)

(** Modelled from the spec: [Position.update] (the position tracker of
    backtrader is not part of the sources) returns the resulting position
    and the opened/closed split of the fill: the part of the fill that
    reduces or reverses the position is closed, the rest is opened; the
    average price follows the opened part. *)
Definition Position_update (p : Position) (size price : float)
  : Position * (float * float) :=
  let oldsize := pos_size p in
  let newsize := (oldsize + size)%float in
  if (newsize =? 0)%float then
    ({| pos_size := newsize; pos_price := 0 |}, (0%float, size))
  else if (oldsize =? 0)%float then
    ({| pos_size := newsize; pos_price := price |}, (size, 0%float))
  else if (0 <? oldsize)%float then
    if (0 <? size)%float then
      ({| pos_size := newsize;
          pos_price := (pos_price p * oldsize + size * price) / newsize |},
       (size, 0%float))
    else if (0 <? newsize)%float then
      ({| pos_size := newsize; pos_price := pos_price p |}, (0%float, size))
    else
      ({| pos_size := newsize; pos_price := price |}, (newsize, - oldsize)%float)
  else
    if (size <? 0)%float then
      ({| pos_size := newsize;
          pos_price := (pos_price p * oldsize + size * price) / newsize |},
       (size, 0%float))
    else if (newsize <? 0)%float then
      ({| pos_size := newsize; pos_price := pos_price p |}, (0%float, size))
    else
      ({| pos_size := newsize; pos_price := price |}, (newsize, - oldsize)%float).

(** Collaborators for the examples: client 1, a clock that accepts every
    text, a feed closing at 100, an empty order store. *)
Definition sample_env : Collaborators := {|
  ib_clientId := 1;
  position_update := Position_update;
  strptime_date2num := fun t _ =>
    match t with None => inl TypeError | Some _ => inr 738000%float end;
  close0 := fun _ => inr 100%float;
  save_path := "TradeData";
  files := ∅;
  getdatabyname := fun _ => inl KeyError;
  getstratbyname := fun _ => inl KeyError;
  OrderBase_init := fun _ _ _ _ => inl KeyError;
  IBOrder_fields := fun _ order => inr order |}.

Definition sample_order (oid : Z) (st : OrdStatus) : IBOrder := {|
  orderId := oid; permId := "9001"; clientId := 1; status := st;
  _willexpire := false;
  comminfo := Some {| mult := 1; stocklike := true |};
  data := {| dataname := "AAPL"; tradecontract := 265598 |};
  executed := [] |}.

(** A broker tracking order 7 in status [st], and nothing else. *)
Definition tracking (st : OrdStatus) : Broker :=
  set_orderbyid {[ 7 := sample_order 7 st ]} init.

Definition status_msg (oid : Z) (st : string) (filled : Z) : OrderStatusMsg :=
  {| msg_orderId := oid; msg_status := st; msg_filled := filled |}.

(** An execution of [n] shares at 100 for order 7, [n] filled in all. *)
Definition sample_execution (sd : string) (n : Z) : Execution := {|
  execId := "0001f4e8.1"; ex_orderId := 7; side := sd; shares := n;
  ex_price := 100; cumQty := n; time := Some "20240102 10:30:00 US/Eastern" |}.

Definition sample_report (comm : float) : CommissionReport :=
  {| cr_execId := "0001f4e8.1"; commission := comm; realizedPNL := 0 |}.

Definition sample_openorder (oid client : Z) : OpenOrderMsg := {|
  oo_orderId := oid; oo_symbol := "AAPL"; oo_action := "BUY";
  oo_orderType := "LMT"; oo_goodTillDate := ""; oo_tradeid := 0;
  oo_clientId := client; oo_permId := "9001"; oo_status := "Submitted" |}.

(** ** The rest of the engine *)

(** The loop of [IBBroker.next] over the queue of open-order snapshots:
    [self.opened_orders.get()] takes the leftmost message, the sentinel ends
    the loop, a snapshot is handed to [rebuild_iborder_from_open_order].  The
    read of an exhausted queue waits for the gateway thread: that is the
    result [None].  The reconstruction never touches the queue, so the
    messages still to be read are the tail of the list. *)
Fixpoint drain_opened (env : Collaborators)
  (queue : list (option OpenOrderMsg)) (s : Broker) : option (Outcome unit) :=
  match queue with
  | [] => None
  | None :: rest => Some (Returns tt (set_opened_orders rest s))
  | Some msg :: rest =>
    match rebuild_iborder_from_open_order env msg (set_opened_orders rest s)
    with
    | Returns _ s' => drain_opened env rest s'
    | Raises e s' => Some (Raises e s')
    end
  end.

(** [IBBroker.next]: drain the snapshots when there are any, then mark the
    notification boundary. *)
Definition next (env : Collaborators) (s : Broker) : option (Outcome unit) :=
  let after_loop :=
    match opened_orders s with
    | [] => Some (Returns tt s)
    | _ :: _ => drain_opened env (opened_orders s) s
    end in
  match after_loop with
  | Some (Returns _ s') =>
    Some (Returns tt (set_notifs (notifs s' ++ [None]) s'))
  | other => other
  end.

(** The status events [push_orderstatus] keeps in the ledger of a tracked
    order: SUBMITTED with something filled, FILLED, and PENDINGSUBMIT or
    PRESUBMITTED with something filled. *)
Definition records_checkpoint (msg : OrderStatusMsg) : bool :=
  negb (String.eqb (msg_status msg) SUBMITTED && (msg_filled msg =? 0))
  && (String.eqb (msg_status msg) SUBMITTED
      || String.eqb (msg_status msg) FILLED
      || ((String.eqb (msg_status msg) PENDINGSUBMIT
           || String.eqb (msg_status msg) PRESUBMITTED)
          && negb (msg_filled msg =? 0))).

(** The status events that neither record a checkpoint nor enter a
    transition branch: PENDINGCANCEL, PENDINGSUBMIT or PRESUBMITTED with
    nothing filled, and every unknown status. *)
Definition no_branch (msg : OrderStatusMsg) : bool :=
  negb (records_checkpoint msg)
  && negb (String.eqb (msg_status msg) SUBMITTED)
  && negb (String.eqb (msg_status msg) CANCELLED)
  && negb (String.eqb (msg_status msg) APICANCELLED)
  && negb (String.eqb (msg_status msg) INACTIVE).

(** The order an inbound status or error event is addressed to. *)
Definition addressee (ev : Event) : option Z :=
  match ev with
  | OrderStatus msg => Some (msg_orderId msg)
  | OrderError msg => err_id msg
  | _ => None
  end.

Definition is_status_or_error (ev : Event) : bool :=
  match ev with
  | OrderStatus _ | OrderError _ => true
  | _ => false
  end.

(** The requests sent to the gateway, in the order they were sent. *)
Definition is_request (e : Effect) : bool :=
  match e with
  | GwCancelOrder _ | GwPlaceOrder _ => true
  | _ => false
  end.

Definition gateway_requests (s : Broker) : list Effect :=
  List.filter is_request (trace s).

(** The calls of the strategy layer, as opposed to the callbacks of the
    gateway. *)
Definition strategy_call (ev : Event) : bool :=
  match ev with
  | Cancel _ | Submit _ _ | GetNotification => true
  | _ => false
  end.

(** The events whose handlers assign a new order object to the order table:
    [submit], and the reconstruction once an order object is constructed. *)
Definition registers (ev : Event) : bool :=
  match ev with
  | Submit _ _ | OpenOrderRebuild _ => true
  | _ => false
  end.

(** [o'] is the order object [o] after transitions and fills: everything but
    the status is as it was, and the fills of [o] are the first of [o']. *)
Definition same_order (o o' : IBOrder) : Prop :=
  orderId o' = orderId o /\ permId o' = permId o /\ clientId o' = clientId o
  /\ _willexpire o' = _willexpire o /\ comminfo o' = comminfo o
  /\ data o' = data o /\ executed o `prefix_of` executed o'.

(** The two keyed tables are consistent: every execution is stored under its
    own execution identifier, a ledger exists for tracked orders only, and
    every ledger entry is a recorded checkpoint stored under its own order
    identifier and filled quantity. *)
Definition keyed (s : Broker) : Prop :=
  (forall k ex, executions s !! k = Some ex -> execId ex = k)
  /\ (forall oid inner, ordstatus s !! oid = Some inner ->
        is_Some (orderbyid s !! oid)
        /\ forall q m, inner !! q = Some m ->
             msg_orderId m = oid /\ msg_filled m = q
             /\ records_checkpoint m = true).

(** Whether the character occurs in the text. *)
Fixpoint has_char (c : ascii) (s : string) : bool :=
  match s with
  | EmptyString => false
  | String c' rest => Ascii.eqb c' c || has_char c rest
  end.

(** Collaborators with one persisted order (permanent identifier 9001, order
    8), whose data feed and strategy are found and whose base classes
    construct the order object. *)
Definition store_env : Collaborators := {|
  ib_clientId := 1;
  position_update := Position_update;
  strptime_date2num := fun t _ =>
    match t with None => inl TypeError | Some _ => inr 738000%float end;
  close0 := fun _ => inr 100%float;
  save_path := "TradeData";
  files := {[ "TradeData/9001.json"%string :=
               {| od_order_id := 8; od_dataname := "AAPL";
                  od_stratname := "strat"; od_size := 10;
                  od_price := 100; od_pricelimit := 0 |} ]};
  getdatabyname := fun n => inr {| dataname := n; tradecontract := 265598 |};
  getstratbyname := fun _ => inr 0;
  OrderBase_init := fun msg od d _ =>
    inr {| orderId := oo_orderId msg; permId := oo_permId msg;
           clientId := oo_clientId msg; status := Created;
           _willexpire := false; comminfo := None; data := d;
           executed := [] |};
  IBOrder_fields := fun _ order => inr order |}.

(** A SUBMITTED status event with nothing filled, for the order [oid]. *)
Definition is_accept_for (oid : Z) (ev : Event) : bool :=
  match ev with
  | OrderStatus msg =>
    (msg_orderId msg =? oid) && String.eqb (msg_status msg) SUBMITTED
    && (msg_filled msg =? 0)
  | _ => false
  end.

(** An INACTIVE status event for the order [oid]. *)
Definition is_inactive_for (oid : Z) (ev : Event) : bool :=
  match ev with
  | OrderStatus msg =>
    (msg_orderId msg =? oid) && String.eqb (msg_status msg) INACTIVE
  | _ => false
  end.

(** An error event for the order [oid] with the given code. *)
Definition is_error_for (oid code : Z) (ev : Event) : bool :=
  match ev with
  | OrderError msg =>
    bool_decide (err_id msg = Some oid) && (errorCode msg =? code)
  | _ => false
  end.

(** An error event for the order [oid] with a code other than 201 and 202. *)
Definition is_other_error_for (oid : Z) (ev : Event) : bool :=
  match ev with
  | OrderError msg =>
    bool_decide (err_id msg = Some oid)
    && negb (errorCode msg =? 202) && negb (errorCode msg =? 201)
  | _ => false
  end.

(** The events that concern the execution identifier [k]: the arrival of an
    execution with that identifier and a commission report for it. *)
Definition touches_execution (k : string) (ev : Event) : bool :=
  match ev with
  | ExecDetails ex => String.eqb (execId ex) k
  | CommissionRep cr => String.eqb (cr_execId cr) k
  | _ => false
  end.

Definition is_commission (ev : Event) : bool :=
  match ev with
  | CommissionRep _ => true
  | _ => false
  end.

(** Two lots of order 7: the checkpoints at 10 and at 20 shares, their
    executions and their commission reports. *)
Definition lot (id : string) (n cum : Z) : Execution := {|
  execId := id; ex_orderId := 7; side := "BOT"; shares := n;
  ex_price := 100; cumQty := cum; time := Some "20240102 10:30:00 US/Eastern" |}.

Definition lot_report (id : string) : CommissionReport :=
  {| cr_execId := id; commission := 1; realizedPNL := 0 |}.

(** ** Basic facts *)

Lemma orderbyid_notify o s : orderbyid (notify o s) = orderbyid s.
Proof. reflexivity. Qed.

Lemma lookup_store_order oid k o s :
  orderbyid (store_order k o s) !! oid
  = if decide (k = oid) then Some o else orderbyid s !! oid.
Proof. unfold store_order; simpl. apply lookup_insert. Qed.

Lemma run_cons env ev evs s : run env (ev :: evs) s = run env evs (step env s ev).
Proof. reflexivity. Qed.

(** A status event for one order leaves the records of the others alone. *)
Lemma push_orderstatus_other msg s oid :
  msg_orderId msg ≠ oid ->
  orderbyid (push_orderstatus msg s) !! oid = orderbyid s !! oid.
Proof.
  intros Hne. unfold push_orderstatus.
  repeat case_match; try reflexivity;
    rewrite ?orderbyid_notify, lookup_store_order;
    destruct (decide _); congruence.
Qed.

Lemma push_ordererror_other msg s oid :
  err_id msg ≠ Some oid ->
  orderbyid (push_ordererror msg s) !! oid = orderbyid s !! oid.
Proof.
  intros Hne. unfold push_ordererror.
  repeat case_match; try reflexivity;
    rewrite ?orderbyid_notify, lookup_store_order;
    destruct (decide _); congruence.
Qed.

(** ** The status transition engine *)

(** One status-preserving event of the engine keeps a terminal order in its
    status. *)
Lemma step_keeps_status env s oid o ev :
  orderbyid s !! oid = Some o ->
  terminal (status o) = true ->
  keeps_status (status o) oid ev = true ->
  exists o', orderbyid (step env s ev) !! oid = Some o'
             /\ status o' = status o.
Proof.
  intros Ho Hterm Hk.
  destruct ev as [msg|msg| | | | | | | |]; simpl in Hk; try discriminate;
    unfold step; simpl.
  - destruct (Z.eqb_spec (msg_orderId msg) oid) as [Heq|Hne];
      [|exists o; split; [rewrite push_orderstatus_other|]; done].
    unfold push_orderstatus. rewrite Heq, Ho.
    destruct (String.eqb (msg_status msg) SUBMITTED && (msg_filled msg =? 0));
      [discriminate|].
    destruct (String.eqb (msg_status msg) CANCELLED
              || String.eqb (msg_status msg) APICANCELLED).
    { rewrite Hk. eauto. }
    destruct (String.eqb (msg_status msg) PENDINGCANCEL).
    { exists o. by destruct (bool_decide _). }
    destruct (String.eqb (msg_status msg) INACTIVE).
    { rewrite Hk. eauto. }
    exists o. split; [|done]. repeat case_match; done.
  - unfold push_ordererror. destruct (err_id msg) as [id|] eqn:Hid; [|eauto].
    destruct (Z.eqb_spec id oid) as [Heq|Hne]; [subst id|].
    + rewrite Ho. unfold alive. rewrite Hterm. simpl.
      destruct (errorCode msg =? 202); [eauto|]. simpl in Hk.
      apply bool_decide_eq_true in Hk.
      destruct (errorCode msg =? 201).
      * rewrite bool_decide_eq_true_2 by done. eauto.
      * exists (OrderBase.reject o). rewrite orderbyid_notify, lookup_store_order.
        rewrite decide_True by done. by rewrite Hk.
    + exists o. split; [|done].
      destruct (orderbyid s !! id) as [o2|] eqn:Ho2; [|done].
      repeat case_match; try done;
        rewrite orderbyid_notify, lookup_store_order, decide_False; done.
Qed.

(** One event of the engine that is not status-preserving moves a terminal
    order to another status: the list in [keeps_status] is exact. *)
Lemma step_changes_status env s oid o ev :
  orderbyid s !! oid = Some o ->
  terminal (status o) = true ->
  (exists msg, ev = OrderStatus msg) \/ (exists msg, ev = OrderError msg) ->
  keeps_status (status o) oid ev = false ->
  exists o', orderbyid (step env s ev) !! oid = Some o'
             /\ status o' <> status o.
Proof.
  intros Ho Hterm [[msg ->]|[msg ->]] Hk; simpl in Hk; unfold step; simpl.
  - destruct (Z.eqb_spec (msg_orderId msg) oid) as [Heq|Hne]; [|discriminate].
    unfold push_orderstatus. rewrite Heq, Ho.
    destruct (String.eqb (msg_status msg) SUBMITTED && (msg_filled msg =? 0)).
    { rewrite bool_decide_eq_false_2
        by (intros E; rewrite E in Hterm; discriminate).
      eexists. rewrite orderbyid_notify, lookup_store_order, decide_True by done.
      split; [done|]. simpl. intros E. rewrite <- E in Hterm. discriminate. }
    destruct (String.eqb (msg_status msg) CANCELLED
              || String.eqb (msg_status msg) APICANCELLED).
    { rewrite Hk. apply orb_false_iff in Hk as [H1 H2].
      apply bool_decide_eq_false in H1, H2.
      eexists. rewrite orderbyid_notify, lookup_store_order, decide_True by done.
      split; [done|]. destruct (_willexpire o); simpl; congruence. }
    destruct (String.eqb (msg_status msg) PENDINGCANCEL); [discriminate|].
    destruct (String.eqb (msg_status msg) INACTIVE); [|discriminate].
    rewrite Hk. apply bool_decide_eq_false in Hk.
    eexists. rewrite orderbyid_notify, lookup_store_order, decide_True by done.
    split; [done|]. simpl. congruence.
  - unfold push_ordererror. destruct (err_id msg) as [id|]; [|discriminate].
    destruct (Z.eqb_spec id oid) as [Heq|Hne]; [subst id|discriminate].
    apply orb_false_iff in Hk as [H1 H2]. apply bool_decide_eq_false in H2.
    rewrite Ho, H1.
    destruct (errorCode msg =? 201).
    + rewrite bool_decide_eq_false_2 by done.
      eexists. rewrite orderbyid_notify, lookup_store_order, decide_True by done.
      split; [done|]. simpl. congruence.
    + eexists. rewrite orderbyid_notify, lookup_store_order, decide_True by done.
      split; [done|]. simpl. congruence.
Qed.

(** An event stopped by a duplicate-detection guard is discarded: the state
    is the one before. *)
Lemma duplicate_discarded s oid o :
  orderbyid s !! oid = Some o ->
  (forall st, st = CANCELLED \/ st = APICANCELLED ->
     status o = Cancelled \/ status o = Expired ->
     forall filled, push_orderstatus (status_msg oid st filled) s = s)
  /\ (status o = Rejected ->
      forall filled, push_orderstatus (status_msg oid INACTIVE filled) s = s)
  /\ (status o = Rejected ->
      push_ordererror {| err_id := Some oid; errorCode := 201 |} s = s)
  /\ (terminal (status o) = true ->
      push_ordererror {| err_id := Some oid; errorCode := 202 |} s = s).
Proof.
  intros Ho. repeat split.
  - intros st [-> | ->] Hst filled; unfold push_orderstatus; simpl; rewrite Ho;
      destruct Hst as [-> | ->]; reflexivity.
  - intros Hst filled. unfold push_orderstatus; simpl. rewrite Ho, Hst.
    reflexivity.
  - intros Hst. unfold push_ordererror; simpl. rewrite Ho, Hst. reflexivity.
  - intros Hst. unfold push_ordererror, alive; simpl. rewrite Ho, Hst.
    reflexivity.
Qed.

(** C1 (as stated, refuted): order 7 is tracked and Completed; a SUBMITTED
    status event with nothing filled passes the only guard of its branch
    (the order is not Accepted) and moves the order to Accepted. *)
Lemma completed_order_revived :
  orderbyid (tracking Completed) !! 7 = Some (sample_order 7 Completed)
  /\ terminal (status (sample_order 7 Completed)) = true
  /\ status <$> orderbyid
       (run sample_env [OrderStatus (status_msg 7 SUBMITTED 0)]
            (tracking Completed)) !! 7
     = Some Accepted.
Proof. vm_compute. repeat split; reflexivity. Qed.

(** C1 (amended): once the status of a tracked order is terminal, every
    sequence of status and error events that are status-preserving for it
    ([keeps_status]) leaves the order tracked and in that status. *)
Theorem terminal_status_kept env evs s oid o :
  orderbyid s !! oid = Some o ->
  terminal (status o) = true ->
  Forall (fun ev => keeps_status (status o) oid ev = true) evs ->
  status <$> orderbyid (run env evs s) !! oid = Some (status o).
Proof.
  revert s o. induction evs as [|ev evs IH]; intros s o Ho Hterm Hall.
  - simpl. by rewrite Ho.
  - apply Forall_cons in Hall as [Hev Hall]. rewrite run_cons.
    destruct (step_keeps_status env s oid o ev Ho Hterm Hev) as (o' & Ho' & Hst).
    rewrite <- Hst. apply IH; rewrite ?Hst; done.
Qed.

Lemma terminal_status_kept_witness :
  let evs := [OrderStatus (status_msg 7 CANCELLED 0);
              OrderError {| err_id := Some 7; errorCode := 202 |};
              OrderStatus (status_msg 7 FILLED 10);
              OrderStatus (status_msg 7 PENDINGCANCEL 0)] in
  orderbyid (tracking Cancelled) !! 7 = Some (sample_order 7 Cancelled)
  /\ terminal (status (sample_order 7 Cancelled)) = true
  /\ Forall (fun ev => keeps_status Cancelled 7 ev = true) evs
  /\ status <$> orderbyid (run sample_env evs (tracking Cancelled)) !! 7
     = Some Cancelled.
Proof.
  assert (H1 : orderbyid (tracking Cancelled) !! 7
               = Some (sample_order 7 Cancelled)) by reflexivity.
  assert (H2 : terminal (status (sample_order 7 Cancelled)) = true)
    by reflexivity.
  assert (H3 : Forall (fun ev => keeps_status Cancelled 7 ev = true)
                 [OrderStatus (status_msg 7 CANCELLED 0);
                  OrderError {| err_id := Some 7; errorCode := 202 |};
                  OrderStatus (status_msg 7 FILLED 10);
                  OrderStatus (status_msg 7 PENDINGCANCEL 0)])
    by (repeat constructor).
  exact (conj H1 (conj H2 (conj H3
    (terminal_status_kept sample_env _ _ 7 _ H1 H2 H3)))).
Defined.

(** A first CANCELLED/APICANCELLED event for a tracked order that is neither
    Cancelled nor Expired makes the one transition and the one
    notification. *)
Lemma cancel_first env s oid o ev :
  orderbyid s !! oid = Some o ->
  status o <> Cancelled -> status o <> Expired ->
  is_cancel_for oid ev = true ->
  step env s ev
  = let o' := if _willexpire o then OrderBase.expire o
              else OrderBase.cancel o in
    notify o' (store_order oid o' s).
Proof.
  intros Ho Hc He Hev. destruct ev as [msg| | | | | | | | |]; try discriminate.
  simpl in Hev. apply andb_true_iff in Hev as [Hid Hst].
  apply Z.eqb_eq in Hid. unfold step; simpl. unfold push_orderstatus.
  rewrite Hid, Ho, Hst.
  assert (String.eqb (msg_status msg) SUBMITTED = false) as ->.
  { apply orb_true_iff in Hst as [H|H]; apply String.eqb_eq in H; rewrite H;
      reflexivity. }
  simpl. rewrite !bool_decide_eq_false_2 by done. reflexivity.
Qed.

(** Any further one is a no-op. *)
Lemma cancel_again env s oid o ev :
  orderbyid s !! oid = Some o ->
  status o = Cancelled \/ status o = Expired ->
  is_cancel_for oid ev = true ->
  step env s ev = s.
Proof.
  intros Ho Hst Hev. destruct ev as [msg| | | | | | | | |]; try discriminate.
  simpl in Hev. apply andb_true_iff in Hev as [Hid Hs].
  apply Z.eqb_eq in Hid. unfold step; simpl. unfold push_orderstatus.
  rewrite Hid, Ho, Hs.
  assert (String.eqb (msg_status msg) SUBMITTED = false) as ->.
  { apply orb_true_iff in Hs as [H|H]; apply String.eqb_eq in H; rewrite H;
      reflexivity. }
  simpl. destruct Hst as [-> | ->]; reflexivity.
Qed.

Lemma cancel_again_run env evs s oid o :
  orderbyid s !! oid = Some o ->
  status o = Cancelled \/ status o = Expired ->
  Forall (fun ev => is_cancel_for oid ev = true) evs ->
  run env evs s = s.
Proof.
  intros Ho Hst. induction 1 as [|ev evs Hev _ IH]; [reflexivity|].
  rewrite run_cons, (cancel_again env s oid o ev); done.
Qed.

(** C3: a non-empty sequence of CANCELLED/APICANCELLED status events for a
    tracked order that was neither Cancelled nor Expired ends in the state
    reached by one transition (expire() when the order will expire, cancel()
    otherwise) followed by one notification; the notification queue has
    grown by exactly that notification, and every further such event leaves
    the state as it is. *)
Theorem cancelled_exactly_once env s oid o ev evs :
  orderbyid s !! oid = Some o ->
  status o <> Cancelled -> status o <> Expired ->
  Forall (fun ev => is_cancel_for oid ev = true) (ev :: evs) ->
  let o' := if _willexpire o then OrderBase.expire o
            else OrderBase.cancel o in
  let s' := run env (ev :: evs) s in
  s' = notify o' (store_order oid o' s)
  /\ status <$> orderbyid s' !! oid
     = Some (if _willexpire o then Expired else Cancelled)
  /\ notifs s' = notifs s ++ [Some (OrderBase.clone o')]
  /\ forall ev', is_cancel_for oid ev' = true -> step env s' ev' = s'.
Proof.
  intros Ho Hc He Hall o' s'. apply Forall_cons in Hall as [Hev Hall].
  assert (Ho' : orderbyid (notify o' (store_order oid o' s)) !! oid = Some o').
  { rewrite orderbyid_notify, lookup_store_order, decide_True; done. }
  assert (Hst' : status o' = Cancelled \/ status o' = Expired).
  { subst o'. destruct (_willexpire o); simpl; auto. }
  assert (Hs' : s' = notify o' (store_order oid o' s)).
  { subst s'. rewrite run_cons, (cancel_first env s oid o ev) by done.
    apply (cancel_again_run env evs _ oid o'); done. }
  rewrite Hs'. repeat split.
  - rewrite Ho'. subst o'. by destruct (_willexpire o).
  - intros ev' Hev'. apply (cancel_again env _ oid o'); done.
Qed.

Lemma cancelled_exactly_once_witness :
  let evs := [OrderStatus (status_msg 7 CANCELLED 0);
              OrderStatus (status_msg 7 APICANCELLED 0);
              OrderStatus (status_msg 7 CANCELLED 0)] in
  let o' := OrderBase.cancel (sample_order 7 Accepted) in
  let s' := run sample_env evs (tracking Accepted) in
  Forall (fun ev => is_cancel_for 7 ev = true) evs
  /\ s' = notify o' (store_order 7 o' (tracking Accepted))
  /\ status <$> orderbyid s' !! 7 = Some Cancelled
  /\ notifs s' = [Some o']
  /\ forall ev', is_cancel_for 7 ev' = true -> step sample_env s' ev' = s'.
Proof.
  assert (H : Forall (fun ev => is_cancel_for 7 ev = true)
                [OrderStatus (status_msg 7 CANCELLED 0);
                 OrderStatus (status_msg 7 APICANCELLED 0);
                 OrderStatus (status_msg 7 CANCELLED 0)])
    by (repeat constructor).
  split; [exact H|].
  apply (cancelled_exactly_once sample_env (tracking Accepted) 7
           (sample_order 7 Accepted)).
  - reflexivity.
  - discriminate.
  - discriminate.
  - exact H.
Defined.

(** ** The commission reconciler *)

Lemma bind_returns {A B} (m : M A) (k : A -> M B) s a s' :
  m s = Returns a s' -> bind m k s = k a s'.
Proof. unfold bind. by intros ->. Qed.

Lemma bind_raises {A B} (m : M A) (k : A -> M B) s e s' :
  m s = Raises e s' -> bind m k s = Raises e s'.
Proof. unfold bind. by intros ->. Qed.

Lemma bind_modify {B} (f : Broker -> Broker) (k : unit -> M B) s :
  bind (modify f) k s = k tt (f s).
Proof. reflexivity. Qed.

Lemma call_returns {A} (r : Exn + A) s a s' :
  call r s = Returns a s' -> r = inr a /\ s' = s.
Proof. destruct r; simpl; unfold raise, ret; intros; by simplify_eq. Qed.

Lemma subscript_returns {A} (f : Broker -> option A) s a s' :
  bind (gets f) subscript s = Returns a s' -> f s = Some a /\ s' = s.
Proof.
  unfold bind, gets, subscript. destruct (f s); simpl; unfold raise, ret;
    intros; by simplify_eq.
Qed.

Lemma pop_execution_returns k s ex s' :
  pop_execution k s = Returns ex s' ->
  executions s !! k = Some ex
  /\ s' = set_executions (delete k (executions s)) s.
Proof.
  unfold pop_execution. destruct (executions s !! k); intros; by simplify_eq.
Qed.

Lemma pop_ordstatus_returns oid q s m s' :
  pop_ordstatus oid q s = Returns m s' ->
  default ∅ (ordstatus s !! oid) !! q = Some m
  /\ s' = set_ordstatus
            (<[oid := delete q (default ∅ (ordstatus s !! oid))]> (ordstatus s))
            s.
Proof.
  unfold pop_ordstatus. destruct (default ∅ (ordstatus s !! oid) !! q);
    intros; by simplify_eq.
Qed.

Lemma getposition_returns d s p s' :
  getposition d s = Returns p s' ->
  p = default flat (positions s !! tradecontract d)
  /\ s' = emit (LogInfo "getposition") s.
Proof. unfold getposition. cbv [bind gets modify ret]. intros; by simplify_eq. Qed.

Lemma execution_time_returns env t s dt s' :
  execution_time env t s = Returns dt s' -> s' = s.
Proof.
  unfold execution_time. case_match; intros Hc; by apply call_returns in Hc as [_ ->].
Qed.

(** Unfolds the first statement of a body known to return. *)
Ltac bind_inv H :=
  lazymatch type of H with
  | bind (modify ?f) ?k ?s = Returns _ _ =>
    rewrite (bind_modify f k s) in H; cbv beta zeta in H
  | bind ?m ?k ?s = Returns _ _ =>
    let E := fresh "E" in
    destruct (m s) as [? ?|? ?] eqn:E;
    [ rewrite (bind_returns m k s _ _ E) in H; cbv beta zeta in H
    | rewrite (bind_raises m k s _ _ E) in H; discriminate H ]
  end.

(** What a reconciliation that runs to its end has done: the execution is
    consumed, the ledger entry taken, the fill applied to the order and to the
    position, the order moved to Completed or Partial, and the order
    identifier made pending. *)
Lemma reconcile_returns env cr s s' :
  reconcile env cr s = Returns tt s' ->
  exists ex order ostatus b position',
    executions s !! cr_execId cr = Some ex
    /\ orderbyid s !! ex_orderId ex = Some order
    /\ default ∅ (ordstatus s !! ex_orderId ex) !! cumQty ex = Some ostatus
    /\ let oid := ex_orderId ex in
       let inner := default ∅ (ordstatus s !! oid) in
       let filled := String.eqb (msg_status ostatus) FILLED in
       let order' := (if filled then OrderBase.completed
                      else OrderBase.partial) (OrderBase.execute b order) in
       orderbyid s' = <[oid := order']> (orderbyid s)
       /\ executions s' = delete (cr_execId cr) (executions s)
       /\ ordstatus s'
          = (if filled then delete oid (ordstatus s)
             else <[oid := delete (cumQty ex) inner]> (ordstatus s))
       /\ notifs s' = notifs s
       /\ tonotify s'
          = (if bool_decide (oid ∈ tonotify s) then tonotify s
             else tonotify s ++ [oid])
       /\ opened_orders s' = opened_orders s
       /\ positions s'
          = <[tradecontract (data order) := position']> (positions s)
       /\ trace s' = trace s ++ [LogInfo "getposition"].
Proof.
  intros H. unfold reconcile in H.
  bind_inv H. apply pop_execution_returns in E as [Hex ->].
  bind_inv H. apply subscript_returns in E as [Ho ->].
  bind_inv H. apply pop_ordstatus_returns in E as [Hl ->].
  bind_inv H. apply getposition_returns in E as [-> ->].
  bind_inv H. apply call_returns in E as [_ ->].
  bind_inv H. apply call_returns in E as [_ ->].
  bind_inv H.
  bind_inv H. apply call_returns in E as [_ ->].
  bind_inv H. apply call_returns in E as [_ ->].
  bind_inv H. apply execution_time_returns in E as ->.
  bind_inv H. apply call_returns in E as [_ ->].
  bind_inv H.
  match type of H with
  | context [position_update env ?p ?f ?pr] =>
    set (updated := position_update env p f pr) in H; clearbody updated
  end.
  match type of H with
  | context [OrderBase.execute ?b0 _] => set (b := b0) in H; clearbody b
  end.
  exists a, a0, a1, b, (fst updated). do 3 (split; [done|]).
  cbv zeta. destruct (String.eqb (msg_status a1) FILLED) eqn:Hfilled.
  - bind_inv H. rewrite bind_modify in E. unfold pop_ledger in E.
    simpl in E. rewrite lookup_insert_eq in E.
    unfold modify in H. simplify_eq. simpl.
    case_bool_decide; simpl; rewrite !insert_insert_eq, delete_insert_eq;
      repeat split; reflexivity.
  - bind_inv H. unfold modify in H. simplify_eq. simpl.
    case_bool_decide; simpl; rewrite !insert_insert_eq;
      repeat split; reflexivity.
Qed.

(** What the same primitives leave behind when they raise. *)
Lemma call_raises {A} (r : Exn + A) s e s' :
  @call A r s = Raises e s' -> r = inl e /\ s' = s.
Proof. destruct r; simpl; unfold raise, ret; intros; by simplify_eq. Qed.

Lemma subscript_raises {A} (f : Broker -> option A) s e s' :
  bind (gets f) subscript s = Raises e s' ->
  f s = None /\ e = KeyError /\ s' = s.
Proof.
  unfold bind, gets, subscript. destruct (f s); simpl; unfold raise, ret;
    intros; by simplify_eq.
Qed.

Lemma pop_execution_raises k s e s' :
  pop_execution k s = Raises e s' ->
  executions s !! k = None /\ e = KeyError /\ s' = s.
Proof.
  unfold pop_execution. destruct (executions s !! k); intros; by simplify_eq.
Qed.

Lemma pop_ordstatus_raises oid q s e s' :
  pop_ordstatus oid q s = Raises e s' ->
  default ∅ (ordstatus s !! oid) !! q = None /\ e = KeyError
  /\ s' = set_ordstatus
            (<[oid := default ∅ (ordstatus s !! oid)]> (ordstatus s)) s.
Proof.
  unfold pop_ordstatus. destruct (default ∅ (ordstatus s !! oid) !! q);
    intros; by simplify_eq.
Qed.

Lemma getposition_raises d s e s' : getposition d s = Raises e s' -> False.
Proof. unfold getposition. cbv [bind gets modify ret]. discriminate. Qed.

Lemma execution_time_raises env t s e s' :
  execution_time env t s = Raises e s' -> s' = s.
Proof.
  unfold execution_time. case_match; intros Hc;
    by apply call_raises in Hc as [_ ->].
Qed.

(** Splits on the outcome of the first statement of a body known to raise;
    the case where that statement raised is left to the caller. *)
Ltac bind_cases H :=
  lazymatch type of H with
  | bind (modify ?f) ?k ?s = Raises _ _ =>
    rewrite (bind_modify f k s) in H; cbv beta zeta in H
  | bind ?m ?k ?s = Raises _ _ =>
    let E := fresh "E" in
    destruct (m s) as [? ?|? ?] eqn:E;
    [ rewrite (bind_returns m k s _ _ E) in H; cbv beta zeta in H
    | rewrite (bind_raises m k s _ _ E) in H; injection H as <- <- ]
  end.

(** A reconciliation that raises has touched neither the order table nor the
    two notification structures. *)
Lemma reconcile_raises env cr s e s' :
  reconcile env cr s = Raises e s' ->
  orderbyid s' = orderbyid s /\ notifs s' = notifs s
  /\ tonotify s' = tonotify s /\ opened_orders s' = opened_orders s.
Proof.
  intros H. unfold reconcile in H.
  bind_cases H;
    [apply pop_execution_returns in E as [_ ->]
    |by apply pop_execution_raises in E as (_ & _ & ->)].
  bind_cases H;
    [apply subscript_returns in E as [_ ->]
    |by apply subscript_raises in E as (_ & _ & ->)].
  bind_cases H;
    [apply pop_ordstatus_returns in E as [_ ->]
    |by apply pop_ordstatus_raises in E as (_ & _ & ->)].
  bind_cases H;
    [apply getposition_returns in E as [-> ->]
    |by apply getposition_raises in E].
  bind_cases H;
    [apply call_returns in E as [_ ->]|by apply call_raises in E as [_ ->]].
  bind_cases H;
    [apply call_returns in E as [_ ->]|by apply call_raises in E as [_ ->]].
  bind_cases H.
  bind_cases H;
    [apply call_returns in E as [_ ->]|by apply call_raises in E as [_ ->]].
  bind_cases H;
    [apply call_returns in E as [_ ->]|by apply call_raises in E as [_ ->]].
  bind_cases H;
    [apply execution_time_returns in E as ->
    |by apply execution_time_raises in E as ->].
  bind_cases H;
    [apply call_returns in E as [_ ->]|by apply call_raises in E as [_ ->]].
  bind_cases H.
  destruct (String.eqb _ FILLED).
  - bind_cases H; [unfold modify in H; discriminate H|].
    rewrite bind_modify in E. unfold pop_ledger in E. simpl in E.
    rewrite lookup_insert_eq in E. discriminate E.
  - bind_cases H. unfold modify in H. discriminate H.
Qed.

(** C2 (as stated, refuted): order 7 is tracked, its execution has arrived,
    but no status checkpoint was recorded for (7, 10).  The commission
    report fails the ledger join, and yet the execution record is gone from
    the execution map and the ledger has gained an (empty) entry for
    order 7. *)
Lemma join_failure_consumes_execution :
  let s := push_execution (sample_execution "BOT" 10) (tracking Submitted) in
  let s' := final (push_commissionreport sample_env (sample_report 1) s) in
  default ∅ (ordstatus s !! 7) !! 10 = None
  /\ executions s !! "0001f4e8.1"%string = Some (sample_execution "BOT" 10)
  /\ executions s' !! "0001f4e8.1"%string = None
  /\ ordstatus s !! 7 = None
  /\ ordstatus s' !! 7 = Some ∅.
Proof. vm_compute. repeat split; reflexivity. Qed.

(** C2 (amended): a commission report whose execution identifier has no
    stored execution record changes nothing but the log.  One whose
    execution is stored, for a tracked order, but whose (order identifier,
    cumulative quantity) key has no ledger entry, returns after logging the
    failure with the order table, the pending-notify list, the notification
    queue, the positions and every ledger entry as before; the execution
    record has been consumed from the execution map, and the order has an
    inner ledger (an empty one if it had none).  When the order of the
    execution is not tracked the ledger is not reached: only the execution
    record is consumed. *)
Theorem commission_join_failure env cr s :
  (executions s !! cr_execId cr = None ->
   push_commissionreport env cr s
   = Returns tt (emit (LogException KeyError) s))
  /\ (forall ex order,
        executions s !! cr_execId cr = Some ex ->
        orderbyid s !! ex_orderId ex = Some order ->
        default ∅ (ordstatus s !! ex_orderId ex) !! cumQty ex = None ->
        push_commissionreport env cr s
        = Returns tt
            (emit (LogException KeyError)
               (set_ordstatus
                  (<[ex_orderId ex := default ∅ (ordstatus s !! ex_orderId ex)]>
                     (ordstatus s))
                  (set_executions (delete (cr_execId cr) (executions s)) s))))
  /\ (forall ex,
        executions s !! cr_execId cr = Some ex ->
        orderbyid s !! ex_orderId ex = None ->
        push_commissionreport env cr s
        = Returns tt
            (emit (LogException KeyError)
               (set_executions (delete (cr_execId cr) (executions s)) s))).
Proof.
  split; [|split].
  - intros Hex. unfold push_commissionreport, try_except, reconcile.
    erewrite bind_raises; [reflexivity|].
    unfold pop_execution. by rewrite Hex.
  - intros ex order Hex Ho Hl.
    unfold push_commissionreport, try_except, reconcile.
    erewrite bind_returns; [|unfold pop_execution; rewrite Hex; reflexivity].
    erewrite bind_returns;
      [|unfold bind, gets, subscript; simpl; rewrite Ho; reflexivity].
    erewrite bind_raises;
      [|unfold pop_ordstatus; simpl; rewrite Hl; reflexivity].
    reflexivity.
  - intros ex Hex Ho.
    unfold push_commissionreport, try_except, reconcile.
    erewrite bind_returns; [|unfold pop_execution; rewrite Hex; reflexivity].
    erewrite bind_raises;
      [|unfold bind, gets, subscript; simpl; rewrite Ho; reflexivity].
    reflexivity.
Qed.

Lemma commission_join_failure_witness :
  let s := push_execution (sample_execution "BOT" 10) (tracking Submitted) in
  let s0 := push_execution (sample_execution "BOT" 10) init in
  let ex := sample_execution "BOT" 10 in
  let cr := sample_report 1 in
  (executions (tracking Submitted) !! cr_execId cr = None
   /\ push_commissionreport sample_env cr (tracking Submitted)
      = Returns tt (emit (LogException KeyError) (tracking Submitted)))
  /\ (executions s !! cr_execId cr = Some ex
      /\ orderbyid s !! ex_orderId ex = Some (sample_order 7 Submitted)
      /\ default ∅ (ordstatus s !! ex_orderId ex) !! cumQty ex = None
      /\ push_commissionreport sample_env cr s
         = Returns tt
             (emit (LogException KeyError)
                (set_ordstatus
                   (<[ex_orderId ex :=
                        default ∅ (ordstatus s !! ex_orderId ex)]>
                      (ordstatus s))
                   (set_executions (delete (cr_execId cr) (executions s)) s))))
  /\ (executions s0 !! cr_execId cr = Some ex
      /\ orderbyid s0 !! ex_orderId ex = None
      /\ push_commissionreport sample_env cr s0
         = Returns tt
             (emit (LogException KeyError)
                (set_executions (delete (cr_execId cr) (executions s0)) s0))).
Proof.
  intros s s0 ex cr.
  assert (H0 : executions (tracking Submitted) !! cr_execId cr = None)
    by reflexivity.
  assert (H1 : executions s !! cr_execId cr = Some ex) by reflexivity.
  assert (H2 : orderbyid s !! ex_orderId ex = Some (sample_order 7 Submitted))
    by reflexivity.
  assert (H3 : default ∅ (ordstatus s !! ex_orderId ex) !! cumQty ex = None)
    by reflexivity.
  assert (H4 : executions s0 !! cr_execId cr = Some ex) by reflexivity.
  assert (H5 : orderbyid s0 !! ex_orderId ex = None) by reflexivity.
  pose proof (commission_join_failure sample_env cr (tracking Submitted))
    as (Ha & _).
  pose proof (commission_join_failure sample_env cr s) as (_ & Hb & _).
  pose proof (commission_join_failure sample_env cr s0) as (_ & _ & Hc).
  exact (conj (conj H0 (Ha H0))
          (conj (conj H1 (conj H2 (conj H3 (Hb ex _ H1 H2 H3))))
                (conj H4 (conj H5 (Hc ex H4 H5))))).
Defined.

(** C5: [push_commissionreport] always returns to its caller.  Whatever the
    reconciliation raises is caught: the handler returns in the state the
    reconciliation had reached, with the exception logged and nothing else
    done.  In particular an execution of zero shares, once its joins have
    succeeded, raises ZeroDivisionError in the commission split, and the
    handler returns with that exception logged. *)
Theorem push_commissionreport_never_raises env cr s :
  (exists s', push_commissionreport env cr s = Returns tt s'
     /\ match reconcile env cr s with
        | Returns _ s1 => s' = s1
        | Raises e s1 => s' = emit (LogException e) s1
        end)
  /\ (forall ex order ostatus c rest,
        executions s !! cr_execId cr = Some ex ->
        orderbyid s !! ex_orderId ex = Some order ->
        default ∅ (ordstatus s !! ex_orderId ex) !! cumQty ex = Some ostatus ->
        side ex = String c rest ->
        shares ex = 0 ->
        exists s1,
          reconcile env cr s = Raises ZeroDivisionError s1
          /\ push_commissionreport env cr s
             = Returns tt (emit (LogException ZeroDivisionError) s1)).
Proof.
  split.
  - unfold push_commissionreport, try_except.
    destruct (reconcile env cr s) as [[] s1|e s1]; eexists; split; reflexivity.
  - intros ex order ostatus c rest Hex Ho Hl Hside Hshares.
    assert (Hr : exists s1, reconcile env cr s = Raises ZeroDivisionError s1).
    { unfold reconcile.
      erewrite bind_returns; [|unfold pop_execution; rewrite Hex; reflexivity].
      erewrite bind_returns;
        [|unfold bind, gets, subscript; simpl; rewrite Ho; reflexivity].
      erewrite bind_returns;
        [|unfold pop_ordstatus; simpl; rewrite Hl; reflexivity].
      erewrite bind_returns; [|reflexivity].
      rewrite Hside, Hshares. erewrite bind_returns; [|reflexivity].
      cbv beta zeta.
      assert (Hsz : float_of_Z (if Ascii.eqb c "B" then 0 else - 0)
                    = inr 0%float) by (destruct (Ascii.eqb c "B"); reflexivity).
      rewrite Hsz. erewrite bind_returns; [|reflexivity].
      rewrite bind_modify. erewrite bind_raises; [eauto|].
      reflexivity. }
    destruct Hr as [s1 Hr]. exists s1. split; [done|].
    unfold push_commissionreport, try_except. by rewrite Hr.
Qed.

Lemma push_commissionreport_never_raises_witness :
  let s := push_execution (sample_execution "BOT" 0)
             (push_orderstatus (status_msg 7 FILLED 0) (tracking Accepted)) in
  let ex := sample_execution "BOT" 0 in
  let cr := sample_report 1 in
  executions s !! cr_execId cr = Some ex
  /\ orderbyid s !! ex_orderId ex = Some (sample_order 7 Accepted)
  /\ default ∅ (ordstatus s !! ex_orderId ex) !! cumQty ex
     = Some (status_msg 7 FILLED 0)
  /\ shares ex = 0
  /\ exists s1,
       reconcile sample_env cr s = Raises ZeroDivisionError s1
       /\ push_commissionreport sample_env cr s
          = Returns tt (emit (LogException ZeroDivisionError) s1).
Proof.
  intros s ex cr.
  assert (H1 : executions s !! cr_execId cr = Some ex) by reflexivity.
  assert (H2 : orderbyid s !! ex_orderId ex = Some (sample_order 7 Accepted))
    by reflexivity.
  assert (H3 : default ∅ (ordstatus s !! ex_orderId ex) !! cumQty ex
               = Some (status_msg 7 FILLED 0)) by reflexivity.
  assert (H4 : shares ex = 0) by reflexivity.
  exact (conj H1 (conj H2 (conj H3 (conj H4
    (proj2 (push_commissionreport_never_raises sample_env cr s)
       ex _ _ "B"%char "OT"%string H1 H2 H3 eq_refl H4))))).
Defined.

(** C6: in a reconciliation that runs to its end, a joined ledger entry of
    status FILLED makes the order Completed and removes the whole ledger of
    the order from the outer map; any other status makes the order Partial
    and keeps the ledger of the order, less the entry that was joined.  The
    ledgers of the other orders are as before. *)
Theorem filled_completes_else_partial env cr s s' ex ostatus :
  executions s !! cr_execId cr = Some ex ->
  default ∅ (ordstatus s !! ex_orderId ex) !! cumQty ex = Some ostatus ->
  reconcile env cr s = Returns tt s' ->
  let oid := ex_orderId ex in
  (forall k, k <> oid -> ordstatus s' !! k = ordstatus s !! k)
  /\ if String.eqb (msg_status ostatus) FILLED
     then status <$> orderbyid s' !! oid = Some Completed
          /\ ordstatus s' !! oid = None
     else status <$> orderbyid s' !! oid = Some Partial
          /\ ordstatus s' !! oid
             = Some (delete (cumQty ex) (default ∅ (ordstatus s !! oid))).
Proof.
  intros Hex Hl Hr oid.
  apply reconcile_returns in Hr
    as (ex' & order & ostatus' & b & p & Hex' & Ho & Hl' & Hs').
  rewrite Hex in Hex'. injection Hex' as <-.
  rewrite Hl in Hl'. injection Hl' as <-.
  cbv zeta in Hs'. destruct Hs' as (Hob & _ & Hos & _). fold oid in Hob, Hos.
  rewrite Hob, Hos, lookup_insert_eq.
  destruct (String.eqb (msg_status ostatus) FILLED); simpl.
  - split; [intros k Hk; by rewrite lookup_delete_ne|].
    split; [reflexivity|apply lookup_delete_eq].
  - split; [intros k Hk; by rewrite lookup_insert_ne|].
    split; [reflexivity|apply lookup_insert_eq].
Qed.

Lemma filled_completes_else_partial_witness :
  let s := push_execution (sample_execution "BOT" 10)
             (push_orderstatus (status_msg 7 FILLED 10) (tracking Accepted)) in
  let cr := sample_report 1 in
  let s' := final (reconcile sample_env cr s) in
  reconcile sample_env cr s = Returns tt s'
  /\ (forall k, k <> 7 -> ordstatus s' !! k = ordstatus s !! k)
  /\ status <$> orderbyid s' !! 7 = Some Completed
  /\ ordstatus s' !! 7 = None.
Proof.
  intros s cr s'.
  assert (Hr : reconcile sample_env cr s = Returns tt s')
    by (vm_compute; reflexivity).
  split; [exact Hr|].
  exact (filled_completes_else_partial sample_env cr s s'
           (sample_execution "BOT" 10) (status_msg 7 FILLED 10)
           eq_refl eq_refl Hr).
Defined.

(** ** The commission split *)









(** ** Calls of the strategy layer and open-order snapshots *)

(** C8: [cancel] changes no local state, whatever the order: the order
    table, the status the engine reports for the order, the ledger, the
    execution map, both notification structures, the open-order queue and the
    positions are as before; the trace is as before or longer by the one
    cancellation request for the order. *)
Theorem cancel_is_fire_and_forget order s :
  let s' := cancel order s in
  orderbyid s' = orderbyid s
  /\ orderstatus order s' = orderstatus order s
  /\ ordstatus s' = ordstatus s
  /\ executions s' = executions s
  /\ notifs s' = notifs s
  /\ tonotify s' = tonotify s
  /\ opened_orders s' = opened_orders s
  /\ positions s' = positions s
  /\ (trace s' = trace s
      \/ trace s' = trace s ++ [GwCancelOrder (orderId order)]).
Proof.
  unfold cancel, orderstatus.
  destruct (orderbyid s !! orderId order) eqn:Ho; simpl; [|by rewrite Ho; auto 10].
  destruct (bool_decide (status order = Cancelled)); simpl; rewrite Ho;
    auto 10.
Qed.

(** C9: an open-order snapshot for an order identifier that is already in
    the order table is ignored: the whole state, and so the order table, the
    record of the order, the reconstruction queue and the notification
    queue, is the one before. *)
Theorem tracked_openorder_ignored msg s :
  is_Some (orderbyid s !! oo_orderId msg) ->
  push_openorder (Some msg) s = s.
Proof.
  intros Htracked. unfold push_openorder.
  by rewrite bool_decide_eq_true_2.
Qed.

Lemma tracked_openorder_ignored_witness :
  is_Some (orderbyid (tracking Accepted) !! oo_orderId (sample_openorder 7 1))
  /\ push_openorder (Some (sample_openorder 7 1)) (tracking Accepted)
     = tracking Accepted.
Proof.
  assert (H : is_Some (orderbyid (tracking Accepted)
                         !! oo_orderId (sample_openorder 7 1)))
    by (eexists; reflexivity).
  exact (conj H (tracked_openorder_ignored _ _ H)).
Defined.

(** C10: a snapshot of another client makes
    [rebuild_iborder_from_open_order] return with the state untouched: the
    trace has no read of the order store and no error, no order is
    registered, nothing is notified.  For the engine's own client a
    permanent identifier without a file is read from the store, reported
    with an error, and nothing else is done. *)
Theorem foreign_openorder_dropped_silently env msg s :
  (oo_clientId msg <> ib_clientId env ->
   rebuild_iborder_from_open_order env msg s = Returns tt s)
  /\ (oo_clientId msg = ib_clientId env ->
      let path :=
        (save_path env +:+ "/" +:+ oo_permId msg +:+ ".json")%string in
      files env !! path = None ->
      rebuild_iborder_from_open_order env msg s
      = Returns tt
          (emit (PrintError "Cannot load order data from file" (oo_orderId msg))
             (emit (StoreRead path) s))).
Proof.
  split.
  - intros Hne. unfold rebuild_iborder_from_open_order.
    apply Z.eqb_neq in Hne. by rewrite Hne.
  - intros Heq path Hfile. unfold rebuild_iborder_from_open_order.
    apply Z.eqb_eq in Heq. rewrite Heq. simpl.
    unfold _load_order. fold path.
    cbv [bind modify ret]. by rewrite Hfile.
Qed.

Lemma foreign_openorder_dropped_silently_witness :
  (oo_clientId (sample_openorder 8 2) <> ib_clientId sample_env
   /\ rebuild_iborder_from_open_order sample_env (sample_openorder 8 2)
        (tracking Accepted)
      = Returns tt (tracking Accepted))
  /\ (oo_clientId (sample_openorder 8 1) = ib_clientId sample_env
      /\ files sample_env !! "TradeData/9001.json"%string = None
      /\ rebuild_iborder_from_open_order sample_env (sample_openorder 8 1)
           (tracking Accepted)
         = Returns tt
             (emit (PrintError "Cannot load order data from file" 8)
                (emit (StoreRead "TradeData/9001.json") (tracking Accepted)))).
Proof.
  assert (H1 : oo_clientId (sample_openorder 8 2) <> ib_clientId sample_env)
    by discriminate.
  assert (H2 : oo_clientId (sample_openorder 8 1) = ib_clientId sample_env)
    by reflexivity.
  assert (H3 : files sample_env !! "TradeData/9001.json"%string = None)
    by reflexivity.
  exact (conj
    (conj H1 (proj1 (foreign_openorder_dropped_silently sample_env
                       (sample_openorder 8 2) (tracking Accepted)) H1))
    (conj H2 (conj H3
       (proj2 (foreign_openorder_dropped_silently sample_env
                 (sample_openorder 8 1) (tracking Accepted)) H2 H3)))).
Defined.

(** ** Deferred fill notification *)

(** The drain over pending identifiers that are all tracked returns, empties
    the pending list and notifies each identifier once, in order. *)
Lemma drain_returns l s :
  Forall (fun oid => is_Some (orderbyid s !! oid)) l ->
  exists s', drain l s = Returns tt s'
    /\ notifs s' = notifs s ++ ((fun oid => orderbyid s !! oid) <$> l)
    /\ tonotify s' = match l with [] => tonotify s | _ => [] end
    /\ orderbyid s' = orderbyid s /\ executions s' = executions s
    /\ ordstatus s' = ordstatus s /\ opened_orders s' = opened_orders s
    /\ positions s' = positions s /\ trace s' = trace s.
Proof.
  revert s. induction l as [|oid rest IH]; intros s Hall.
  - exists s. simpl. rewrite app_nil_r. by repeat split.
  - apply Forall_cons in Hall as [[o Ho] Hrest].
    destruct (IH (notify o (set_tonotify rest s)) Hrest)
      as (s' & Hd & Hn & Ht & Hob & Hrem).
    exists s'. split.
    { simpl. rewrite bind_modify.
      erewrite bind_returns;
        [|unfold bind, gets, subscript; simpl; rewrite Ho; reflexivity].
      rewrite bind_modify. exact Hd. }
    split. { rewrite Hn. simpl. rewrite Ho, <- app_assoc. reflexivity. }
    split. { rewrite Ht. by destruct rest. }
    split; [exact Hob|exact Hrem].
Qed.

(** A state change that keeps the pending list and forgets no order keeps
    the invariant. *)
Lemma pending_ok_frame s s' :
  tonotify s' = tonotify s ->
  (forall oid, is_Some (orderbyid s !! oid) -> is_Some (orderbyid s' !! oid)) ->
  pending_ok s -> pending_ok s'.
Proof.
  intros Ht Hmono [Hnd Hall]. split; rewrite Ht; [done|].
  eapply Forall_impl; [exact Hall|]. auto.
Qed.

Lemma is_Some_store_order k o s oid :
  is_Some (orderbyid s !! oid) -> is_Some (orderbyid (store_order k o s) !! oid).
Proof. rewrite lookup_store_order. case_decide; [by eexists|done]. Qed.

(** Every event keeps the invariant. *)
Lemma step_pending env s ev : pending_ok s -> pending_ok (step env s ev).
Proof.
  intros Hok. unfold step. destruct ev as [msg|msg|ex|cr| |msg|msg|o|o oco| ].
  - apply (pending_ok_frame s); [| |done]; simpl; unfold push_orderstatus;
      repeat case_match; try done; intros; simpl;
      by apply is_Some_store_order.
  - apply (pending_ok_frame s); [| |done]; simpl; unfold push_ordererror;
      repeat case_match; try done; intros; simpl;
      by apply is_Some_store_order.
  - by apply (pending_ok_frame s).
  - simpl. unfold push_commissionreport, try_except.
    destruct (reconcile env cr s) as [[] s1|e s1] eqn:Hr.
    + apply reconcile_returns in Hr
        as (ex & order & ostatus & b & p & _ & Ho & _ & Hs1).
      cbv zeta in Hs1. destruct Hs1 as (Hob & _ & _ & _ & Ht & _).
      destruct Hok as [Hnd Hall]. simpl. split; rewrite Ht.
      * case_bool_decide; [done|].
        apply NoDup_app. split; [done|]. split; [|apply NoDup_singleton].
        intros x Hx ->%list_elem_of_singleton. done.
      * assert (Hmono : Forall (fun oid => is_Some (orderbyid s1 !! oid))
                          (tonotify s)).
        { eapply Forall_impl; [exact Hall|]. intros oid Hoid. simpl.
          rewrite Hob, lookup_insert.
          destruct (decide (ex_orderId ex = oid)); [by eexists|done]. }
        case_bool_decide; [done|]. apply Forall_app. split; [done|].
        constructor; [|constructor]. rewrite Hob, lookup_insert_eq.
        by eexists.
    + apply reconcile_raises in Hr as (Hob & _ & Ht & _).
      apply (pending_ok_frame s); simpl; [done| |done].
      intros oid. by rewrite Hob.
  - simpl. unfold push_portupdate.
    destruct (drain_returns (tonotify s) s (proj2 Hok))
      as (s' & -> & _ & Ht & Hob & _). simpl.
    destruct Hok as [Hnd Hall]. split; rewrite Ht.
    + destruct (tonotify s); apply NoDup_nil_2.
    + destruct (tonotify s); constructor.
  - apply (pending_ok_frame s); [| |done]; simpl; unfold push_openorder;
      repeat case_match; done.
  - apply (pending_ok_frame s); [| |done]; simpl;
      unfold rebuild_iborder_from_open_order, _load_order, bind, call,
        modify, ret, raise;
      repeat case_match; simplify_eq; try done; intros; simpl;
      by apply is_Some_store_order.
  - apply (pending_ok_frame s); [| |done]; simpl; unfold cancel;
      repeat case_match; done.
  - apply (pending_ok_frame s); [| |done]; simpl;
      unfold submit, bind, gets, subscript, modify, ret, raise;
      repeat case_match; simplify_eq; try done; intros; simpl;
      by apply is_Some_store_order.
  - apply (pending_ok_frame s); [| |done]; simpl; unfold get_notification;
      repeat case_match; done.
Qed.

(** The invariant holds in every state the engine reaches. *)
Lemma run_pending env evs s : pending_ok s -> pending_ok (run env evs s).
Proof.
  revert s. induction evs as [|ev evs IH]; intros s Hok; [done|].
  rewrite run_cons. apply IH. by apply step_pending.
Qed.

Lemma init_pending : pending_ok init.
Proof. split; [apply NoDup_nil_2|constructor]. Qed.

(** C7: in every state [s] the engine reaches from its initial state, the
    pending-notify list has no duplicates; a commission report leaves the
    notification queue as it is, and when its reconciliation runs to its end
    the order identifier has been appended to the pending-notify list if and
    only if it was not there, the list again being without duplicates; a
    portfolio-update tick returns with the pending-notify list empty and the
    notification queue extended by exactly one notification per pending
    identifier, the clone of the tracked order of that identifier, in the
    order of the list. *)
Theorem fill_notification_deferred env evs :
  let s := run env evs init in
  NoDup (tonotify s)
  /\ (forall cr,
        notifs (final (push_commissionreport env cr s)) = notifs s
        /\ forall s1,
             reconcile env cr s = Returns tt s1 ->
             exists ex,
               executions s !! cr_execId cr = Some ex
               /\ push_commissionreport env cr s = Returns tt s1
               /\ tonotify s1
                  = (if bool_decide (ex_orderId ex ∈ tonotify s)
                     then tonotify s else tonotify s ++ [ex_orderId ex])
               /\ NoDup (tonotify s1))
  /\ exists s',
       push_portupdate s = Returns tt s'
       /\ tonotify s' = []
       /\ Forall (fun oid => is_Some (orderbyid s !! oid)) (tonotify s)
       /\ notifs s'
          = notifs s
            ++ ((fun oid => OrderBase.clone <$> orderbyid s !! oid)
                  <$> tonotify s)
       /\ orderbyid s' = orderbyid s.
Proof.
  intros s. assert (Hok : pending_ok s) by apply run_pending, init_pending.
  split; [apply Hok|]. split.
  - intros cr. split.
    + unfold push_commissionreport, try_except.
      destruct (reconcile env cr s) as [[] s1|e s1] eqn:Hr; simpl.
      * apply reconcile_returns in Hr as (? & ? & ? & ? & ? & _ & _ & _ & Hs1).
        apply Hs1.
      * apply reconcile_raises in Hr. apply Hr.
    + intros s1 Hr.
      assert (Hok1 : pending_ok (step env s (CommissionRep cr)))
        by apply step_pending, Hok.
      unfold step in Hok1; simpl in Hok1.
      unfold push_commissionreport, try_except in *. rewrite Hr in *.
      simpl in Hok1.
      apply reconcile_returns in Hr
        as (ex & order & ostatus & b & p & Hex & _ & _ & Hs1).
      exists ex. split; [done|]. split; [done|]. split; [apply Hs1|apply Hok1].
  - destruct (drain_returns (tonotify s) s (proj2 Hok))
      as (s' & Hd & Hn & Ht & Hob & _).
    exists s'. split; [exact Hd|]. split.
    { rewrite Ht. by destruct (tonotify s). }
    split; [apply Hok|]. split; [|exact Hob].
    rewrite Hn. f_equal. apply list_fmap_ext. intros i oid _.
    unfold OrderBase.clone. by destruct (orderbyid s !! oid).
Qed.

Lemma fill_notification_deferred_witness :
  let evs := [Submit (sample_order 7 Created) None;
              OrderStatus (status_msg 7 SUBMITTED 0);
              OrderStatus (status_msg 7 SUBMITTED 10);
              ExecDetails (sample_execution "BOT" 10)] in
  let s := run sample_env evs init in
  let cr := sample_report 1 in
  let s1 := final (reconcile sample_env cr s) in
  reconcile sample_env cr s = Returns tt s1
  /\ exists ex,
       executions s !! cr_execId cr = Some ex
       /\ push_commissionreport sample_env cr s = Returns tt s1
       /\ tonotify s1
          = (if bool_decide (ex_orderId ex ∈ tonotify s)
             then tonotify s else tonotify s ++ [ex_orderId ex])
       /\ NoDup (tonotify s1).
Proof.
  intros evs s cr s1.
  assert (Hr : reconcile sample_env cr s = Returns tt s1)
    by (vm_compute; reflexivity).
  split; [exact Hr|].
  exact (proj2 (proj1 (proj2 (fill_notification_deferred sample_env evs)) cr)
           s1 Hr).
Defined.

(** ** A whole fill, end to end *)

(** An order is submitted and accepted, a first checkpoint of 10 shares is
    reported, executed and reconciled (Partial), then the rest is reported
    as FILLED, executed and reconciled (Completed); the portfolio tick
    delivers one notification for the order, on top of the two of the
    submission and the acceptance. *)
Example fill_scenario :
  let evs := [Submit (sample_order 7 Created) None;
              OrderStatus (status_msg 7 SUBMITTED 0);
              OrderStatus (status_msg 7 SUBMITTED 10);
              ExecDetails (sample_execution "BOT" 10);
              CommissionRep (sample_report 1)] in
  let s := run sample_env evs init in
  let s' := run sample_env [PortUpdate] s in
  status <$> orderbyid s !! 7 = Some Partial
  /\ tonotify s = [7]
  /\ length (notifs s) = 2%nat
  /\ positions s !! 265598 = Some {| pos_size := 10; pos_price := 100 |}
  /\ tonotify s' = []
  /\ map (option_map status) (notifs s')
     = [Some Submitted; Some Accepted; Some Partial].
Proof. vm_compute. repeat split; reflexivity. Qed.

(** The text of an execution time loses its zone token before it is parsed;
    a text without a second token is parsed whole. *)
Example split_on_time :
  split_on " " "20240102 10:30:00 US/Eastern"
  = ["20240102"; "10:30:00"; "US/Eastern"]%string
  /\ split_on " " "20240102" = ["20240102"%string]
  /\ split_on " " "" = [""%string].
Proof. repeat split; reflexivity. Qed.

(** [float(n)] is exact on small integers and raises beyond the range. *)
Example float_of_Z_samples :
  float_of_Z 10 = inr 10%float
  /\ float_of_Z (-3) = inr (-3)%float
  /\ float_of_Z (2 ^ 53 + 1) = inr 9007199254740992%float
  /\ float_of_Z (2 ^ 1024) = inl OverflowError.
Proof. vm_compute. repeat split; reflexivity. Qed.

(** ** Further properties of the status transition engine *)

(** A state that absorbs the events of a kind absorbs every sequence of
    them. *)
Lemma run_absorbed env (P : Event -> bool) s evs :
  (forall ev, P ev = true -> step env s ev = s) ->
  Forall (fun ev => P ev = true) evs ->
  run env evs s = s.
Proof.
  intros Habs. induction 1 as [|ev evs Hev _ IH]; [reflexivity|].
  by rewrite run_cons, Habs.
Qed.

(** A status event that records a checkpoint does just that. *)
Lemma push_orderstatus_records msg s o :
  orderbyid s !! msg_orderId msg = Some o ->
  records_checkpoint msg = true ->
  push_orderstatus msg s = record_status msg s.
Proof.
  intros Ho Hrec. unfold push_orderstatus. rewrite Ho. clear Ho.
  unfold records_checkpoint in Hrec. destruct msg as [oid st q]; simpl in *.
  destruct (String.eqb st SUBMITTED && (q =? 0)); [discriminate|].
  simpl in Hrec.
  destruct (String.eqb_spec st SUBMITTED) as [->|_]; [reflexivity|].
  destruct (String.eqb_spec st FILLED) as [->|_]; [reflexivity|].
  simpl in Hrec. apply andb_true_iff in Hrec as [Hst Hq]. rewrite Hq.
  apply orb_true_iff in Hst as [Hst|Hst]; apply String.eqb_eq in Hst;
    subst st; reflexivity.
Qed.

(** X1: a status event that carries a checkpoint (SUBMITTED with something
    filled, FILLED, PENDINGSUBMIT or PRESUBMITTED with something filled), for
    a tracked order, is kept in the ledger under (order identifier, filled
    quantity), replacing what was there; every other ledger entry, the order
    table, the executions and both notification structures are as before:
    the status of the order does not move and nothing is notified yet. *)
Theorem checkpoint_recorded msg s o :
  orderbyid s !! msg_orderId msg = Some o ->
  records_checkpoint msg = true ->
  let s' := push_orderstatus msg s in
  default ∅ (ordstatus s' !! msg_orderId msg) !! msg_filled msg = Some msg
  /\ (forall oid q,
        (oid, q) <> (msg_orderId msg, msg_filled msg) ->
        default ∅ (ordstatus s' !! oid) !! q
        = default ∅ (ordstatus s !! oid) !! q)
  /\ orderbyid s' = orderbyid s /\ executions s' = executions s
  /\ notifs s' = notifs s /\ tonotify s' = tonotify s.
Proof.
  intros Ho Hrec s'. subst s'. rewrite (push_orderstatus_records msg s o Ho Hrec).
  unfold record_status; simpl. split.
  - by rewrite lookup_insert_eq; simpl; rewrite lookup_insert_eq.
  - split; [|done]. intros oid q Hne.
    destruct (decide (oid = msg_orderId msg)) as [->|Hoid].
    + rewrite lookup_insert_eq; simpl. rewrite lookup_insert_ne; [done|].
      congruence.
    + by rewrite lookup_insert_ne.
Qed.

Lemma checkpoint_recorded_witness :
  let msg := status_msg 7 FILLED 10 in
  let s := push_orderstatus (status_msg 7 SUBMITTED 10) (tracking Accepted) in
  let s' := push_orderstatus msg s in
  orderbyid s !! msg_orderId msg = Some (sample_order 7 Accepted)
  /\ records_checkpoint msg = true
  /\ default ∅ (ordstatus s !! 7) !! 10 = Some (status_msg 7 SUBMITTED 10)
  /\ default ∅ (ordstatus s' !! msg_orderId msg) !! msg_filled msg = Some msg
  /\ orderbyid s' = orderbyid s /\ notifs s' = notifs s.
Proof.
  intros msg s s'.
  assert (H1 : orderbyid s !! msg_orderId msg = Some (sample_order 7 Accepted))
    by reflexivity.
  assert (H2 : records_checkpoint msg = true) by reflexivity.
  pose proof (checkpoint_recorded msg s _ H1 H2) as (Ha & _ & Hb & _ & Hc & _).
  exact (conj H1 (conj H2 (conj eq_refl (conj Ha (conj Hb Hc))))).
Defined.

(** X2: the checkpoint a status event has recorded is what the reconciler
    takes for that order and filled quantity; the take removes that entry and
    no other, so that a second take of the same key raises KeyError. *)
Theorem checkpoint_taken_once msg s o :
  orderbyid s !! msg_orderId msg = Some o ->
  records_checkpoint msg = true ->
  exists s1 s2,
    pop_ordstatus (msg_orderId msg) (msg_filled msg) (push_orderstatus msg s)
    = Returns msg s1
    /\ (forall oid q,
          default ∅ (ordstatus s1 !! oid) !! q
          = if decide ((oid, q) = (msg_orderId msg, msg_filled msg))
            then None else default ∅ (ordstatus s !! oid) !! q)
    /\ pop_ordstatus (msg_orderId msg) (msg_filled msg) s1
       = Raises KeyError s2.
Proof.
  intros Ho Hrec. rewrite (push_orderstatus_records msg s o Ho Hrec).
  set (oid0 := msg_orderId msg). set (q0 := msg_filled msg).
  set (inner := default ∅ (ordstatus s !! oid0)).
  assert (Hpop : pop_ordstatus oid0 q0 (record_status msg s)
                 = Returns msg
                     (set_ordstatus
                        (<[oid0 := delete q0 inner]> (ordstatus s)) s)).
  { unfold pop_ordstatus, record_status; simpl. fold oid0 q0 inner.
    rewrite lookup_insert_eq; simpl. rewrite lookup_insert_eq.
    rewrite insert_insert_eq, delete_insert_eq. reflexivity. }
  eexists _, _. split; [exact Hpop|]. split.
  - intros oid q; simpl. case_decide as Heq.
    + injection Heq as -> ->. rewrite lookup_insert_eq; simpl.
      apply lookup_delete_eq.
    + destruct (decide (oid = oid0)) as [->|Hoid].
      * rewrite lookup_insert_eq; simpl. rewrite lookup_delete_ne; [done|].
        congruence.
      * by rewrite lookup_insert_ne.
  - unfold pop_ordstatus; simpl. rewrite lookup_insert_eq; simpl.
    rewrite lookup_delete_eq. reflexivity.
Qed.

Lemma checkpoint_taken_once_witness :
  let msg := status_msg 7 FILLED 10 in
  let s := tracking Accepted in
  orderbyid s !! msg_orderId msg = Some (sample_order 7 Accepted)
  /\ records_checkpoint msg = true
  /\ exists s1 s2,
       pop_ordstatus 7 10 (push_orderstatus msg s) = Returns msg s1
       /\ (forall oid q,
             default ∅ (ordstatus s1 !! oid) !! q
             = if decide ((oid, q) = (7, 10))
               then None else default ∅ (ordstatus s !! oid) !! q)
       /\ pop_ordstatus 7 10 s1 = Raises KeyError s2.
Proof.
  intros msg s.
  assert (H1 : orderbyid s !! msg_orderId msg = Some (sample_order 7 Accepted))
    by reflexivity.
  assert (H2 : records_checkpoint msg = true) by reflexivity.
  exact (conj H1 (conj H2 (checkpoint_taken_once msg s _ H1 H2))).
Defined.

(** X3: PENDINGCANCEL, PENDINGSUBMIT and PRESUBMITTED with nothing filled,
    and every status the engine does not know, leave the whole state as it
    is, whatever the status of the order and whether it is tracked or not. *)
Theorem no_branch_ignored msg s :
  no_branch msg = true -> push_orderstatus msg s = s.
Proof.
  unfold no_branch, records_checkpoint, push_orderstatus.
  intros H. destruct (orderbyid s !! msg_orderId msg) as [o|]; [|reflexivity].
  destruct msg as [oid st q]; simpl in *.
  repeat (apply andb_true_iff in H as [H ?]).
  repeat match goal with
         | Hn : negb _ = true |- _ => apply negb_true_iff in Hn
         end.
  repeat match goal with
         | Hn : String.eqb st _ = false |- _ => rewrite Hn in *; clear Hn
         end.
  simpl in *. destruct (bool_decide _); simpl.
  all: destruct (String.eqb st PENDINGCANCEL); [reflexivity|].
  all: destruct (String.eqb st FILLED); [discriminate|]; simpl in *.
  all: destruct (String.eqb st PENDINGSUBMIT || String.eqb st PRESUBMITTED);
    [|reflexivity].
  all: simpl in *; apply negb_false_iff in H; by rewrite H.
Qed.

Lemma no_branch_ignored_witness :
  no_branch (status_msg 7 PENDINGCANCEL 0) = true
  /\ no_branch (status_msg 7 PRESUBMITTED 0) = true
  /\ no_branch (status_msg 7 "Unknown" 5) = true
  /\ push_orderstatus (status_msg 7 PENDINGCANCEL 0) (tracking Accepted)
     = tracking Accepted.
Proof.
  assert (H : no_branch (status_msg 7 PENDINGCANCEL 0) = true) by reflexivity.
  exact (conj H (conj eq_refl (conj eq_refl
    (no_branch_ignored _ (tracking Accepted) H)))).
Defined.

(** X4: a non-empty sequence of SUBMITTED status events with nothing filled,
    for a tracked order that is not Accepted, accepts the order once and
    notifies it once; every further such event leaves the state as it is. *)
Theorem accepted_exactly_once env s oid o ev evs :
  orderbyid s !! oid = Some o ->
  status o <> Accepted ->
  Forall (fun ev => is_accept_for oid ev = true) (ev :: evs) ->
  let o' := OrderBase.accept o in
  let s' := run env (ev :: evs) s in
  s' = notify o' (store_order oid o' s)
  /\ notifs s' = notifs s ++ [Some (OrderBase.clone o')]
  /\ forall ev', is_accept_for oid ev' = true -> step env s' ev' = s'.
Proof.
  intros Ho Hst Hall o' s'. apply Forall_cons in Hall as [Hev Hall].
  set (s1 := notify o' (store_order oid o' s)).
  assert (Habs : forall ev', is_accept_for oid ev' = true ->
                             step env s1 ev' = s1).
  { intros [msg| | | | | | | | |] Hev'; try discriminate. simpl in Hev'.
    apply andb_true_iff in Hev' as [Hev' Hq].
    apply andb_true_iff in Hev' as [Hid Hs]. apply Z.eqb_eq in Hid.
    unfold step; simpl. unfold push_orderstatus.
    rewrite Hid, Hs, Hq. subst s1.
    rewrite orderbyid_notify, lookup_store_order, decide_True by done.
    reflexivity. }
  assert (Hfirst : step env s ev = s1).
  { destruct ev as [msg| | | | | | | | |]; try discriminate. simpl in Hev.
    apply andb_true_iff in Hev as [Hev Hq].
    apply andb_true_iff in Hev as [Hid Hs]. apply Z.eqb_eq in Hid.
    unfold step; simpl. unfold push_orderstatus.
    rewrite Hid, Ho, Hs, Hq. simpl.
    by rewrite bool_decide_eq_false_2. }
  assert (Hs' : s' = s1).
  { subst s'. rewrite run_cons, Hfirst.
    by apply (run_absorbed env (is_accept_for oid)). }
  rewrite Hs'. split; [done|]. split; [done|exact Habs].
Qed.

Lemma accepted_exactly_once_witness :
  let evs := [OrderStatus (status_msg 7 SUBMITTED 0);
              OrderStatus (status_msg 7 SUBMITTED 0)] in
  let o' := OrderBase.accept (sample_order 7 Submitted) in
  let s' := run sample_env evs (tracking Submitted) in
  Forall (fun ev => is_accept_for 7 ev = true) evs
  /\ s' = notify o' (store_order 7 o' (tracking Submitted))
  /\ notifs s' = [Some o']
  /\ forall ev', is_accept_for 7 ev' = true -> step sample_env s' ev' = s'.
Proof.
  assert (H : Forall (fun ev => is_accept_for 7 ev = true)
                [OrderStatus (status_msg 7 SUBMITTED 0);
                 OrderStatus (status_msg 7 SUBMITTED 0)])
    by (repeat constructor).
  split; [exact H|].
  apply (accepted_exactly_once sample_env (tracking Submitted) 7
           (sample_order 7 Submitted)); [reflexivity|discriminate|exact H].
Defined.

(** X5: a cancellation confirmed more than once, by CANCELLED or
    APICANCELLED status events and by errors 202 in any order, is applied
    and notified once: for a tracked order that is still alive the first
    event of the sequence makes the transition (expire() only when it is a
    status event and the order will expire, cancel() otherwise) and the one
    notification, and the rest of the sequence changes nothing. *)
Theorem cancellation_confirmed_once env s oid o ev evs :
  orderbyid s !! oid = Some o ->
  alive o = true ->
  Forall (fun ev => is_cancel_for oid ev || is_error_for oid 202 ev = true)
    (ev :: evs) ->
  let o' := if is_cancel_for oid ev && _willexpire o then OrderBase.expire o
            else OrderBase.cancel o in
  let s' := run env (ev :: evs) s in
  s' = notify o' (store_order oid o' s)
  /\ notifs s' = notifs s ++ [Some (OrderBase.clone o')].
Proof.
  intros Ho Halive Hall o' s'. apply Forall_cons in Hall as [Hev Hall].
  set (s1 := notify o' (store_order oid o' s)).
  assert (Ho1 : orderbyid s1 !! oid = Some o').
  { subst s1. by rewrite orderbyid_notify, lookup_store_order, decide_True. }
  assert (Hst1 : status o' = Cancelled \/ status o' = Expired).
  { subst o'. destruct (is_cancel_for oid ev && _willexpire o); simpl; auto. }
  assert (Hnc : status o <> Cancelled /\ status o <> Expired).
  { unfold alive in Halive. destruct (status o); done. }
  assert (Habs : forall ev',
             is_cancel_for oid ev' || is_error_for oid 202 ev' = true ->
             step env s1 ev' = s1).
  { intros ev' Hev'. apply orb_true_iff in Hev' as [Hev'|Hev'].
    - by apply (cancel_again env s1 oid o' ev').
    - destruct ev' as [|msg| | | | | | | |]; try discriminate. simpl in Hev'.
      apply andb_true_iff in Hev' as [Hid Hcode].
      apply bool_decide_eq_true in Hid. unfold step; simpl.
      unfold push_ordererror, alive. rewrite Hid, Ho1, Hcode.
      by destruct Hst1 as [-> | ->]. }
  assert (Hfirst : step env s ev = s1).
  { apply orb_true_iff in Hev as [Hev|Hev].
    - rewrite (cancel_first env s oid o ev Ho (proj1 Hnc) (proj2 Hnc) Hev).
      subst s1 o'. by rewrite Hev.
    - destruct ev as [|msg| | | | | | | |]; try discriminate. simpl in Hev.
      apply andb_true_iff in Hev as [Hid Hcode].
      apply bool_decide_eq_true in Hid. unfold step; simpl.
      unfold push_ordererror. rewrite Hid, Ho, Hcode, Halive. reflexivity. }
  assert (Hs' : s' = s1).
  { subst s'. rewrite run_cons, Hfirst.
    by apply (run_absorbed env
                (fun ev => is_cancel_for oid ev || is_error_for oid 202 ev)). }
  by rewrite Hs'.
Qed.

Lemma cancellation_confirmed_once_witness :
  let evs := [OrderError {| err_id := Some 7; errorCode := 202 |};
              OrderStatus (status_msg 7 CANCELLED 0);
              OrderError {| err_id := Some 7; errorCode := 202 |}] in
  let o' := OrderBase.cancel (sample_order 7 Accepted) in
  let s' := run sample_env evs (tracking Accepted) in
  Forall (fun ev => is_cancel_for 7 ev || is_error_for 7 202 ev = true) evs
  /\ s' = notify o' (store_order 7 o' (tracking Accepted))
  /\ notifs s' = [Some o'].
Proof.
  assert (H : Forall
                (fun ev => is_cancel_for 7 ev || is_error_for 7 202 ev = true)
                [OrderError {| err_id := Some 7; errorCode := 202 |};
                 OrderStatus (status_msg 7 CANCELLED 0);
                 OrderError {| err_id := Some 7; errorCode := 202 |}])
    by (repeat constructor).
  split; [exact H|].
  apply (cancellation_confirmed_once sample_env (tracking Accepted) 7
           (sample_order 7 Accepted)); [reflexivity|reflexivity|exact H].
Defined.

(** X6: a rejection reported more than once, by INACTIVE status events and
    by errors 201 in any order, is applied and notified once for a tracked
    order that is not Rejected yet. *)
Theorem rejection_reported_once env s oid o ev evs :
  orderbyid s !! oid = Some o ->
  status o <> Rejected ->
  Forall (fun ev => is_inactive_for oid ev || is_error_for oid 201 ev = true)
    (ev :: evs) ->
  let o' := OrderBase.reject o in
  let s' := run env (ev :: evs) s in
  s' = notify o' (store_order oid o' s)
  /\ notifs s' = notifs s ++ [Some (OrderBase.clone o')].
Proof.
  intros Ho Hst Hall o' s'. apply Forall_cons in Hall as [Hev Hall].
  set (s1 := notify o' (store_order oid o' s)).
  assert (Hone : forall s0 o0 ev0,
             orderbyid s0 !! oid = Some o0 ->
             is_inactive_for oid ev0 || is_error_for oid 201 ev0 = true ->
             step env s0 ev0
             = if bool_decide (status o0 = Rejected) then s0
               else notify (OrderBase.reject o0)
                      (store_order oid (OrderBase.reject o0) s0)).
  { intros s0 o0 ev0 Ho0 Hev0. apply orb_true_iff in Hev0 as [Hev0|Hev0].
    - destruct ev0 as [msg| | | | | | | | |]; try discriminate. simpl in Hev0.
      apply andb_true_iff in Hev0 as [Hid Hs]. apply Z.eqb_eq in Hid.
      apply String.eqb_eq in Hs. unfold step; simpl. unfold push_orderstatus.
      rewrite Hid, Ho0, Hs. reflexivity.
    - destruct ev0 as [|msg| | | | | | | |]; try discriminate. simpl in Hev0.
      apply andb_true_iff in Hev0 as [Hid Hcode].
      apply bool_decide_eq_true in Hid. apply Z.eqb_eq in Hcode.
      unfold step; simpl. unfold push_ordererror.
      rewrite Hid, Ho0, Hcode. reflexivity. }
  assert (Hs' : s' = s1).
  { subst s'. rewrite run_cons, (Hone s o ev Ho Hev).
    rewrite bool_decide_eq_false_2 by done. fold o' s1.
    apply (run_absorbed env
             (fun ev => is_inactive_for oid ev || is_error_for oid 201 ev));
      [|done].
    intros ev' Hev'. rewrite (Hone s1 o' ev'); [done| |done].
    subst s1. by rewrite orderbyid_notify, lookup_store_order, decide_True. }
  by rewrite Hs'.
Qed.

Lemma rejection_reported_once_witness :
  let evs := [OrderStatus (status_msg 7 INACTIVE 0);
              OrderError {| err_id := Some 7; errorCode := 201 |};
              OrderStatus (status_msg 7 INACTIVE 0)] in
  let o' := OrderBase.reject (sample_order 7 Accepted) in
  let s' := run sample_env evs (tracking Accepted) in
  Forall (fun ev => is_inactive_for 7 ev || is_error_for 7 201 ev = true) evs
  /\ s' = notify o' (store_order 7 o' (tracking Accepted))
  /\ notifs s' = [Some o'].
Proof.
  assert (H : Forall
                (fun ev =>
                   is_inactive_for 7 ev || is_error_for 7 201 ev = true)
                [OrderStatus (status_msg 7 INACTIVE 0);
                 OrderError {| err_id := Some 7; errorCode := 201 |};
                 OrderStatus (status_msg 7 INACTIVE 0)])
    by (repeat constructor).
  split; [exact H|].
  apply (rejection_reported_once sample_env (tracking Accepted) 7
           (sample_order 7 Accepted)); [reflexivity|discriminate|exact H].
Defined.

(** X7: the default branch of [push_ordererror] has no duplicate detection:
    every error with a code other than 201 and 202, for a tracked order,
    rejects the order and notifies it again, so that n such errors give n
    notifications of the Rejected order. *)
Theorem other_errors_notify_each_time env s oid o evs :
  orderbyid s !! oid = Some o ->
  Forall (fun ev => is_other_error_for oid ev = true) evs ->
  let s' := run env evs s in
  notifs s'
  = notifs s ++ replicate (length evs) (Some (OrderBase.reject o))
  /\ (evs <> [] -> orderbyid s' !! oid = Some (OrderBase.reject o)).
Proof.
  intros Ho Hall.
  assert (Hone : forall s0 o0 ev0,
             orderbyid s0 !! oid = Some o0 ->
             is_other_error_for oid ev0 = true ->
             step env s0 ev0
             = notify (OrderBase.reject o0)
                 (store_order oid (OrderBase.reject o0) s0)).
  { intros s0 o0 ev0 Ho0 Hev0.
    destruct ev0 as [|msg| | | | | | | |]; try discriminate. simpl in Hev0.
    apply andb_true_iff in Hev0 as [Hev0 H201].
    apply andb_true_iff in Hev0 as [Hid H202].
    apply bool_decide_eq_true in Hid. apply negb_true_iff in H201, H202.
    unfold step; simpl. unfold push_ordererror.
    by rewrite Hid, Ho0, H202, H201. }
  assert (Hgen : forall evs0 s0 o0,
             orderbyid s0 !! oid = Some o0 ->
             Forall (fun ev => is_other_error_for oid ev = true) evs0 ->
             notifs (run env evs0 s0)
             = notifs s0 ++ replicate (length evs0) (Some (OrderBase.reject o0))
             /\ (evs0 <> [] ->
                 orderbyid (run env evs0 s0) !! oid
                 = Some (OrderBase.reject o0))).
  { induction evs0 as [|ev0 evs0 IH]; intros s0 o0 Ho0 Hall0.
    - simpl. by rewrite app_nil_r.
    - apply Forall_cons in Hall0 as [Hev0 Hall0].
      rewrite run_cons, (Hone s0 o0 ev0 Ho0 Hev0).
      set (o1 := OrderBase.reject o0).
      assert (Ho1 : orderbyid (notify o1 (store_order oid o1 s0)) !! oid
                    = Some o1).
      { by rewrite orderbyid_notify, lookup_store_order, decide_True. }
      destruct (IH _ o1 Ho1 Hall0) as [Hn Hob]. split.
      + rewrite Hn. simpl. rewrite <- app_assoc. reflexivity.
      + intros _. destruct evs0 as [|ev1 evs1]; [exact Ho1|].
        by rewrite Hob. }
  apply Hgen; done.
Qed.

Lemma other_errors_notify_each_time_witness :
  let evs := [OrderError {| err_id := Some 7; errorCode := 110 |};
              OrderError {| err_id := Some 7; errorCode := 110 |};
              OrderError {| err_id := Some 7; errorCode := 399 |}] in
  let s' := run sample_env evs (tracking Accepted) in
  Forall (fun ev => is_other_error_for 7 ev = true) evs
  /\ notifs s'
     = replicate 3 (Some (OrderBase.reject (sample_order 7 Accepted)))
  /\ (evs <> [] ->
      orderbyid s' !! 7 = Some (OrderBase.reject (sample_order 7 Accepted))).
Proof.
  assert (H : Forall (fun ev => is_other_error_for 7 ev = true)
                [OrderError {| err_id := Some 7; errorCode := 110 |};
                 OrderError {| err_id := Some 7; errorCode := 110 |};
                 OrderError {| err_id := Some 7; errorCode := 399 |}])
    by (repeat constructor).
  split; [exact H|].
  exact (other_errors_notify_each_time sample_env (tracking Accepted) 7
           (sample_order 7 Accepted) _ eq_refl H).
Defined.

(** X8: status and error events that are addressed to no tracked order (an
    unknown order identifier, or an error without identifier) are dropped:
    any sequence of them leaves the whole state as it is. *)
Theorem untracked_events_ignored env evs s :
  Forall (fun ev => is_status_or_error ev = true
                    /\ forall oid, addressee ev = Some oid ->
                                   orderbyid s !! oid = None) evs ->
  run env evs s = s.
Proof.
  induction 1 as [|ev evs [Hkind Haddr] _ IH]; [reflexivity|].
  rewrite run_cons.
  assert (Hstep : step env s ev = s); [|by rewrite Hstep].
  destruct ev as [msg|msg| | | | | | | |]; try discriminate;
    unfold step; simpl.
  - unfold push_orderstatus. by rewrite (Haddr _ eq_refl).
  - unfold push_ordererror. simpl in Haddr.
    destruct (err_id msg) as [id|]; [|reflexivity].
    by rewrite (Haddr _ eq_refl).
Qed.

Lemma untracked_events_ignored_witness :
  let evs := [OrderStatus (status_msg 8 CANCELLED 0);
              OrderError {| err_id := None; errorCode := 2104 |};
              OrderError {| err_id := Some 9; errorCode := 202 |}] in
  Forall (fun ev => is_status_or_error ev = true
                    /\ forall oid, addressee ev = Some oid ->
                         orderbyid (tracking Accepted) !! oid = None) evs
  /\ run sample_env evs (tracking Accepted) = tracking Accepted.
Proof.
  assert (H : Forall
                (fun ev => is_status_or_error ev = true
                           /\ forall oid, addressee ev = Some oid ->
                                orderbyid (tracking Accepted) !! oid = None)
                [OrderStatus (status_msg 8 CANCELLED 0);
                 OrderError {| err_id := None; errorCode := 2104 |};
                 OrderError {| err_id := Some 9; errorCode := 202 |}]).
  { repeat constructor; simpl; intros oid Hoid; try discriminate;
      injection Hoid as <-; reflexivity. }
  exact (conj H (untracked_events_ignored sample_env _ _ H)).
Defined.

(** ** What the events do to the tables *)

Lemma same_order_refl o : same_order o o.
Proof. by repeat split. Qed.

Lemma same_order_trans o1 o2 o3 :
  same_order o1 o2 -> same_order o2 o3 -> same_order o1 o3.
Proof.
  intros (H1 & H2 & H3 & H4 & H5 & H6 & H7) (K1 & K2 & K3 & K4 & K5 & K6 & K7).
  repeat split; try congruence. by etrans.
Qed.

Lemma same_order_set_status st o : same_order o (set_status st o).
Proof. by repeat split. Qed.

(** The drain of the pending identifiers, wherever it stops, has touched the
    two notification structures only. *)
Lemma drain_frame l s :
  let s' := final (drain l s) in
  orderbyid s' = orderbyid s /\ executions s' = executions s
  /\ ordstatus s' = ordstatus s /\ positions s' = positions s
  /\ opened_orders s' = opened_orders s /\ trace s' = trace s.
Proof.
  revert s. induction l as [|oid rest IH]; intros s; [by repeat split|].
  destruct (orderbyid s !! oid) as [o|] eqn:Ho.
  - assert (Hd : drain (oid :: rest) s
                 = drain rest (notify o (set_tonotify rest s))).
    { simpl. rewrite bind_modify.
      erewrite bind_returns;
        [|unfold bind, gets, subscript; simpl; rewrite Ho; reflexivity].
      by rewrite bind_modify. }
    rewrite Hd. apply (IH (notify o (set_tonotify rest s))).
  - assert (Hd : drain (oid :: rest) s = Raises KeyError (set_tonotify rest s)).
    { simpl. rewrite bind_modify.
      erewrite bind_raises;
        [|unfold bind, gets, subscript; simpl; rewrite Ho; reflexivity].
      reflexivity. }
    rewrite Hd. by repeat split.
Qed.

(** Splits on the condition of a conditional of the goal. *)
Ltac if_cases :=
  match goal with
  | |- context [if ?b then _ else _] => destruct b eqn:?
  end.

(** How an event that registers no order changes the order table: not at
    all, or by replacing a tracked order object by the same object after
    transitions and fills; the object is Expired afterwards only if it was
    marked as about to expire. *)
Lemma step_order_table env s ev :
  registers ev = false ->
  orderbyid (step env s ev) = orderbyid s
  \/ exists oid o o',
       orderbyid s !! oid = Some o /\ same_order o o'
       /\ (status o' = Expired -> _willexpire o = true)
       /\ orderbyid (step env s ev) = <[oid := o']> (orderbyid s).
Proof.
  intros Hreg. unfold step.
  destruct ev as [msg|msg|ex|cr| |msg|msg|o|o oco| ]; try discriminate;
    simpl.
  - unfold push_orderstatus.
    destruct (orderbyid s !! msg_orderId msg) as [o|] eqn:Ho; [|by left].
    repeat if_cases; try (by left); right;
      eexists (msg_orderId msg), o, _;
      (split; [exact Ho|]); (split; [apply same_order_set_status|]);
      (split; [|reflexivity]); simpl; try discriminate; done.
  - unfold push_ordererror. destruct (err_id msg) as [id|]; [|by left].
    destruct (orderbyid s !! id) as [o|] eqn:Ho; [|by left].
    repeat if_cases; try (by left); right; eexists id, o, _;
      (split; [exact Ho|]); (split; [apply same_order_set_status|]);
      (split; [|reflexivity]); simpl; discriminate.
  - by left.
  - unfold push_commissionreport, try_except.
    destruct (reconcile env cr s) as [[] s1|e s1] eqn:Hr; simpl.
    + apply reconcile_returns in Hr
        as (ex & order & ostatus & b & p & _ & Ho & _ & Hs1).
      cbv zeta in Hs1. destruct Hs1 as (Hob & _).
      right. eexists (ex_orderId ex), order, _. split; [exact Ho|].
      split; [|split; [|exact Hob]].
      * destruct (String.eqb (msg_status ostatus) FILLED);
          repeat split; simpl; by apply prefix_app_r.
      * by destruct (String.eqb (msg_status ostatus) FILLED).
    + apply reconcile_raises in Hr as (Hob & _). by left.
  - left. unfold push_portupdate. apply (drain_frame (tonotify s) s).
  - left. unfold push_openorder. by repeat case_match.
  - left. unfold cancel. by repeat case_match.
  - left. unfold get_notification. by repeat case_match.
Qed.

(** How an event that registers an order changes the order table: not at
    all, or by storing an order object under one identifier. *)
Lemma step_registers env s ev :
  registers ev = true ->
  orderbyid (step env s ev) = orderbyid s
  \/ exists oid o, orderbyid (step env s ev) = <[oid := o]> (orderbyid s).
Proof.
  intros Hreg. unfold step.
  destruct ev as [msg|msg|ex|cr| |msg|msg|o|o oco| ]; try discriminate;
    simpl.
  - unfold rebuild_iborder_from_open_order, _load_order, bind, call, modify,
      ret, raise.
    repeat case_match; simplify_eq; simpl; eauto.
  - unfold submit, bind, gets, subscript, modify, ret, raise.
    repeat case_match; simplify_eq; simpl; eauto.
Qed.

(** X9: no event removes an order from the order table: an order identifier
    that is tracked stays tracked along every sequence of events. *)
Theorem tracked_stays_tracked env evs s oid :
  is_Some (orderbyid s !! oid) ->
  is_Some (orderbyid (run env evs s) !! oid).
Proof.
  revert s. induction evs as [|ev evs IH]; intros s Htracked; [done|].
  rewrite run_cons. apply IH.
  destruct (registers ev) eqn:Hreg.
  - destruct (step_registers env s ev Hreg) as [->|(k & o & ->)]; [done|].
    rewrite lookup_insert. by case_decide.
  - destruct (step_order_table env s ev Hreg)
      as [->|(k & o & o' & _ & _ & _ & ->)]; [done|].
    rewrite lookup_insert. by case_decide.
Qed.

Lemma tracked_stays_tracked_witness :
  let evs := [OrderStatus (status_msg 7 FILLED 10);
              ExecDetails (sample_execution "BOT" 10);
              CommissionRep (sample_report 1); PortUpdate;
              OrderError {| err_id := Some 7; errorCode := 202 |};
              Submit (sample_order 8 Created) None] in
  is_Some (orderbyid (tracking Accepted) !! 7)
  /\ is_Some (orderbyid (run sample_env evs (tracking Accepted)) !! 7).
Proof.
  assert (H : is_Some (orderbyid (tracking Accepted) !! 7))
    by (eexists; reflexivity).
  exact (conj H (tracked_stays_tracked sample_env _ _ 7 H)).
Defined.

(** Along events that register no order, a tracked order object stays the
    same object, and is Expired only if it was, or was marked as about to
    expire. *)
Lemma run_same_order env evs s oid o :
  Forall (fun ev => registers ev = false) evs ->
  orderbyid s !! oid = Some o ->
  exists o', orderbyid (run env evs s) !! oid = Some o'
             /\ same_order o o'
             /\ (status o' = Expired ->
                 status o = Expired \/ _willexpire o = true).
Proof.
  intros Hall. revert s o.
  induction Hall as [|ev evs Hev _ IH]; intros s o Ho.
  - exists o. split; [done|]. split; [apply same_order_refl|auto].
  - rewrite run_cons.
    assert (Hstep : exists o1, orderbyid (step env s ev) !! oid = Some o1
                      /\ same_order o o1
                      /\ (status o1 = Expired ->
                          status o = Expired \/ _willexpire o = true)).
    { destruct (step_order_table env s ev Hev)
        as [->|(k & o0 & o0' & Ho0 & Hsame & Hexp & ->)].
      - exists o. split; [done|]. split; [apply same_order_refl|auto].
      - destruct (decide (k = oid)) as [->|Hne].
        + rewrite lookup_insert_eq. rewrite Ho in Ho0. injection Ho0 as <-.
          exists o0'. auto.
        + rewrite lookup_insert_ne by done.
          exists o. split; [done|]. split; [apply same_order_refl|auto]. }
    destruct Hstep as (o1 & Ho1 & Hsame1 & Hexp1).
    destruct (IH _ _ Ho1) as (o' & Ho' & Hsame' & Hexp').
    exists o'. split; [done|]. split; [by eapply same_order_trans|].
    intros Hst. destruct (Hexp' Hst) as [H1|H1]; [auto|].
    right. destruct Hsame1 as (_ & _ & _ & Hw & _). by rewrite <- Hw.
Qed.

(** X10: the callbacks of the gateway, the cancellation call and the reading
    of notifications never replace or alter a tracked order beyond its
    status and its fills: after any sequence of events other than [submit]
    and the reconstruction from a snapshot, the order tracked under an
    identifier has the order identifier, permanent identifier, client, expiry
    mark, commission scheme and data feed it had, and its earlier fills are
    the first of its fills. *)
Theorem tracked_order_identity_kept env evs s oid o :
  Forall (fun ev => registers ev = false) evs ->
  orderbyid s !! oid = Some o ->
  exists o', orderbyid (run env evs s) !! oid = Some o' /\ same_order o o'.
Proof.
  intros Hall Ho. destruct (run_same_order env evs s oid o Hall Ho)
    as (o' & Ho' & Hsame & _). eauto.
Qed.

Lemma tracked_order_identity_kept_witness :
  let evs := [OrderStatus (status_msg 7 FILLED 10);
              ExecDetails (sample_execution "BOT" 10);
              CommissionRep (sample_report 1); PortUpdate] in
  Forall (fun ev => registers ev = false) evs
  /\ orderbyid (tracking Accepted) !! 7 = Some (sample_order 7 Accepted)
  /\ exists o', orderbyid (run sample_env evs (tracking Accepted)) !! 7
                = Some o'
                /\ same_order (sample_order 7 Accepted) o'.
Proof.
  assert (H : Forall (fun ev => registers ev = false)
                [OrderStatus (status_msg 7 FILLED 10);
                 ExecDetails (sample_execution "BOT" 10);
                 CommissionRep (sample_report 1); PortUpdate])
    by (repeat constructor).
  exact (conj H (conj eq_refl
    (tracked_order_identity_kept sample_env _ (tracking Accepted) 7 _
       H eq_refl))).
Defined.

(** X11: the engine never sets the expiry mark and expires marked orders
    only: an order tracked with the mark unset and not Expired is not
    Expired after any sequence of events other than [submit] and the
    reconstruction from a snapshot; its cancellations end in Cancelled. *)
Theorem unmarked_order_never_expires env evs s oid o :
  Forall (fun ev => registers ev = false) evs ->
  orderbyid s !! oid = Some o ->
  _willexpire o = false ->
  status o <> Expired ->
  exists o', orderbyid (run env evs s) !! oid = Some o'
             /\ _willexpire o' = false /\ status o' <> Expired.
Proof.
  intros Hall Ho Hw Hst. destruct (run_same_order env evs s oid o Hall Ho)
    as (o' & Ho' & Hsame & Hexp).
  exists o'. split; [done|]. split.
  - destruct Hsame as (_ & _ & _ & Hw' & _). by rewrite Hw'.
  - intros Hst'. destruct (Hexp Hst') as [H|H]; [done|]. congruence.
Qed.

Lemma unmarked_order_never_expires_witness :
  let evs := [OrderStatus (status_msg 7 CANCELLED 0);
              OrderStatus (status_msg 7 APICANCELLED 0)] in
  Forall (fun ev => registers ev = false) evs
  /\ _willexpire (sample_order 7 Accepted) = false
  /\ exists o', orderbyid (run sample_env evs (tracking Accepted)) !! 7
                = Some o'
                /\ _willexpire o' = false /\ status o' <> Expired.
Proof.
  assert (H : Forall (fun ev => registers ev = false)
                [OrderStatus (status_msg 7 CANCELLED 0);
                 OrderStatus (status_msg 7 APICANCELLED 0)])
    by (repeat constructor).
  assert (Hst : status (sample_order 7 Accepted) <> Expired) by discriminate.
  exact (conj H (conj eq_refl
    (unmarked_order_never_expires sample_env _ (tracking Accepted) 7 _
       H eq_refl eq_refl Hst))).
Defined.

(** What a reconciliation that raises has done to the execution map, the
    ledger and the trace: the execution may have been consumed; the ledger of
    the order of the execution, a tracked order, may have been created empty
    or may have lost the entry that was joined; the position may have been
    read. *)
Lemma reconcile_raises_tables env cr s e s' :
  reconcile env cr s = Raises e s' ->
  (executions s' = executions s
   \/ executions s' = delete (cr_execId cr) (executions s))
  /\ (trace s' = trace s \/ trace s' = trace s ++ [LogInfo "getposition"])
  /\ (ordstatus s' = ordstatus s
      \/ exists ex order,
           executions s !! cr_execId cr = Some ex
           /\ orderbyid s !! ex_orderId ex = Some order
           /\ (ordstatus s'
               = <[ex_orderId ex := default ∅ (ordstatus s !! ex_orderId ex)]>
                   (ordstatus s)
               \/ ordstatus s'
                  = <[ex_orderId ex :=
                        delete (cumQty ex)
                          (default ∅ (ordstatus s !! ex_orderId ex))]>
                      (ordstatus s))).
Proof.
  intros H. unfold reconcile in H.
  bind_cases H;
    [apply pop_execution_returns in E as [Hex ->]
    |apply pop_execution_raises in E as (_ & _ & ->); auto].
  bind_cases H;
    [apply subscript_returns in E as [Ho ->]
    |apply subscript_raises in E as (_ & _ & ->); simpl; auto].
  simpl in Ho.
  assert (Hled : forall m,
             m = <[ex_orderId a := default ∅ (ordstatus s !! ex_orderId a)]>
                   (ordstatus s)
             \/ m = <[ex_orderId a :=
                        delete (cumQty a)
                          (default ∅ (ordstatus s !! ex_orderId a))]>
                      (ordstatus s) ->
             m = ordstatus s
             \/ exists ex order,
                  executions s !! cr_execId cr = Some ex
                  /\ orderbyid s !! ex_orderId ex = Some order
                  /\ (m = <[ex_orderId ex :=
                              default ∅ (ordstatus s !! ex_orderId ex)]>
                            (ordstatus s)
                      \/ m = <[ex_orderId ex :=
                                 delete (cumQty ex)
                                   (default ∅ (ordstatus s !! ex_orderId ex))]>
                               (ordstatus s))).
  { intros m Hm. right. eauto. }
  bind_cases H;
    [apply pop_ordstatus_returns in E as [_ ->]
    |apply pop_ordstatus_raises in E as (_ & _ & ->); simpl; auto 10].
  bind_cases H;
    [apply getposition_returns in E as [-> ->]
    |by apply getposition_raises in E].
  bind_cases H;
    [apply call_returns in E as [_ ->]
    |apply call_raises in E as [_ ->]; simpl; auto 10].
  bind_cases H;
    [apply call_returns in E as [_ ->]
    |apply call_raises in E as [_ ->]; simpl; auto 10].
  bind_cases H.
  bind_cases H;
    [apply call_returns in E as [_ ->]
    |apply call_raises in E as [_ ->]; simpl; auto 10].
  bind_cases H;
    [apply call_returns in E as [_ ->]
    |apply call_raises in E as [_ ->]; simpl; auto 10].
  bind_cases H;
    [apply execution_time_returns in E as ->
    |apply execution_time_raises in E as ->; simpl; auto 10].
  bind_cases H;
    [apply call_returns in E as [_ ->]
    |apply call_raises in E as [_ ->]; simpl; auto 10].
  bind_cases H.
  destruct (String.eqb _ FILLED).
  - bind_cases H; [unfold modify in H; discriminate H|].
    rewrite bind_modify in E. unfold pop_ledger in E. simpl in E.
    rewrite lookup_insert_eq in E. discriminate E.
  - bind_cases H. unfold modify in H. discriminate H.
Qed.

(** The requests of a trace extended by a log record are the same. *)
Lemma gateway_requests_emit s e :
  is_request e = false -> gateway_requests (emit e s) = gateway_requests s.
Proof.
  intros He. unfold gateway_requests; simpl.
  rewrite List.filter_app; simpl. rewrite He. apply app_nil_r.
Qed.

Lemma gateway_requests_trace s s' :
  trace s' = trace s -> gateway_requests s' = gateway_requests s.
Proof. unfold gateway_requests. by intros ->. Qed.

(** X12: the gateway is only ever addressed by the strategy layer: no
    callback of the gateway (status, error, execution, commission report,
    portfolio tick, open-order snapshot and its reconstruction) sends a
    request to it, whatever the sequence. *)
Theorem callbacks_send_no_request env evs s :
  Forall (fun ev => strategy_call ev = false) evs ->
  gateway_requests (run env evs s) = gateway_requests s.
Proof.
  intros Hall. revert s. induction Hall as [|ev evs Hev _ IH]; intros s;
    [reflexivity|].
  rewrite run_cons, IH. clear IH. unfold step.
  destruct ev as [msg|msg|ex|cr| |msg|msg|o|o oco| ]; try discriminate;
    simpl.
  - apply gateway_requests_trace. unfold push_orderstatus.
    destruct (orderbyid s !! msg_orderId msg); [|done].
    by repeat if_cases.
  - apply gateway_requests_trace. unfold push_ordererror.
    destruct (err_id msg); [|done]. destruct (orderbyid s !! _); [|done].
    by repeat if_cases.
  - done.
  - unfold push_commissionreport, try_except.
    destruct (reconcile env cr s) as [[] s1|e s1] eqn:Hr; simpl.
    + apply reconcile_returns in Hr as (? & ? & ? & ? & ? & _ & _ & _ & Hs1).
      cbv zeta in Hs1. destruct Hs1 as (_ & _ & _ & _ & _ & _ & _ & Htr).
      unfold gateway_requests. rewrite Htr, List.filter_app. simpl.
      apply app_nil_r.
    + apply reconcile_raises_tables in Hr as (_ & [Htr|Htr] & _);
        rewrite gateway_requests_emit by done;
        unfold gateway_requests; rewrite Htr; [done|].
      rewrite List.filter_app. simpl. apply app_nil_r.
  - apply gateway_requests_trace. unfold push_portupdate.
    apply (drain_frame (tonotify s) s).
  - apply gateway_requests_trace. unfold push_openorder.
    destruct msg; [|done]. by if_cases.
  - unfold rebuild_iborder_from_open_order, _load_order, bind, call, modify,
      ret, raise.
    repeat case_match; simplify_eq; unfold gateway_requests; simpl;
      rewrite ?List.filter_app; simpl; by rewrite ?app_nil_r.
Qed.

Lemma callbacks_send_no_request_witness :
  let evs := [OrderStatus (status_msg 7 FILLED 10);
              ExecDetails (sample_execution "BOT" 10);
              CommissionRep (sample_report 1); PortUpdate;
              OrderError {| err_id := Some 7; errorCode := 202 |};
              OpenOrder (Some (sample_openorder 8 1));
              OpenOrderRebuild (sample_openorder 8 1)] in
  Forall (fun ev => strategy_call ev = false) evs
  /\ gateway_requests (run store_env evs (tracking Accepted)) = [].
Proof.
  assert (H : Forall (fun ev => strategy_call ev = false)
                [OrderStatus (status_msg 7 FILLED 10);
                 ExecDetails (sample_execution "BOT" 10);
                 CommissionRep (sample_report 1); PortUpdate;
                 OrderError {| err_id := Some 7; errorCode := 202 |};
                 OpenOrder (Some (sample_openorder 8 1));
                 OpenOrderRebuild (sample_openorder 8 1)])
    by (repeat constructor).
  exact (conj H (callbacks_send_no_request store_env _ (tracking Accepted) H)).
Defined.

(** ** The keys of the execution map and of the ledger *)

Lemma step_tracked env s ev oid :
  is_Some (orderbyid s !! oid) -> is_Some (orderbyid (step env s ev) !! oid).
Proof.
  intros Htracked. destruct (registers ev) eqn:Hreg.
  - destruct (step_registers env s ev Hreg) as [->|(k & o & ->)]; [done|].
    rewrite lookup_insert. by case_decide.
  - destruct (step_order_table env s ev Hreg)
      as [->|(k & o & o' & _ & _ & _ & ->)]; [done|].
    rewrite lookup_insert. by case_decide.
Qed.

(** A state change that keeps both tables and forgets no order keeps their
    consistency. *)
Lemma keyed_frame s s' :
  executions s' = executions s -> ordstatus s' = ordstatus s ->
  (forall oid, is_Some (orderbyid s !! oid) -> is_Some (orderbyid s' !! oid)) ->
  keyed s -> keyed s'.
Proof.
  intros He Hl Hmono [Hex Hled]. split.
  - by rewrite He.
  - rewrite Hl. intros oid inner Hin. destruct (Hled oid inner Hin). auto.
Qed.

(** So does the replacement of the ledger of a tracked order by a ledger of
    well-keyed checkpoints, and the removal of a ledger. *)
Lemma keyed_ledger s s' oid (change : option (gmap Z OrderStatusMsg)) :
  (forall k ex, executions s' !! k = Some ex -> executions s !! k = Some ex) ->
  (forall k, is_Some (orderbyid s !! k) -> is_Some (orderbyid s' !! k)) ->
  ordstatus s'
  = match change with
    | Some inner' => <[oid := inner']> (ordstatus s)
    | None => delete oid (ordstatus s)
    end ->
  match change with
  | Some inner' =>
    is_Some (orderbyid s !! oid)
    /\ forall q m, inner' !! q = Some m ->
         msg_orderId m = oid /\ msg_filled m = q /\ records_checkpoint m = true
  | None => True
  end ->
  keyed s -> keyed s'.
Proof.
  intros He Hmono Hl Hchange [Hex Hled]. split.
  - intros k ex Hk. apply Hex, He, Hk.
  - rewrite Hl. intros k inner Hin. destruct change as [inner'|].
    + destruct (decide (oid = k)) as [->|Hne].
      * rewrite lookup_insert_eq in Hin. injection Hin as <-.
        destruct Hchange as [Ht Hkeys]. auto.
      * rewrite lookup_insert_ne in Hin by done.
        destruct (Hled k inner Hin). auto.
    + destruct (decide (oid = k)) as [->|Hne].
      * by rewrite lookup_delete_eq in Hin.
      * rewrite lookup_delete_ne in Hin by done.
        destruct (Hled k inner Hin). auto.
Qed.

(** The entries of the ledger of an order in a consistent state, with or
    without one of them. *)
Lemma keyed_inner s oid q (del : bool) :
  keyed s ->
  forall q' m,
    (if del then delete q (default ∅ (ordstatus s !! oid))
     else default ∅ (ordstatus s !! oid)) !! q' = Some m ->
    msg_orderId m = oid /\ msg_filled m = q' /\ records_checkpoint m = true.
Proof.
  intros [_ Hled] q' m Hm.
  assert (Hin : default ∅ (ordstatus s !! oid) !! q' = Some m).
  { destruct del; [|done].
    destruct (decide (q = q')) as [->|Hne];
      [by rewrite lookup_delete_eq in Hm|by rewrite lookup_delete_ne in Hm]. }
  destruct (ordstatus s !! oid) as [inner|] eqn:Ho; simpl in Hin; [|done].
  by apply (Hled oid inner Ho).
Qed.

(** What a status event does to the ledger. *)
Lemma push_orderstatus_ledger msg s :
  executions (push_orderstatus msg s) = executions s
  /\ (ordstatus (push_orderstatus msg s) = ordstatus s
      \/ is_Some (orderbyid s !! msg_orderId msg)
         /\ records_checkpoint msg = true
         /\ push_orderstatus msg s = record_status msg s).
Proof.
  destruct (orderbyid s !! msg_orderId msg) as [o|] eqn:Ho.
  - destruct (records_checkpoint msg) eqn:Hrec.
    + rewrite (push_orderstatus_records msg s o Ho Hrec). split; [done|].
      right. eauto.
    + assert (Hsame : executions (push_orderstatus msg s) = executions s
                      /\ ordstatus (push_orderstatus msg s) = ordstatus s);
        [|destruct Hsame; auto].
      unfold push_orderstatus. rewrite Ho.
      unfold records_checkpoint in Hrec.
      destruct (String.eqb (msg_status msg) SUBMITTED && (msg_filled msg =? 0))
        eqn:H1; simpl in Hrec.
      { by if_cases. }
      repeat if_cases; simpl in *; try done.
      all: match goal with
           | H : negb _ = true |- _ => rewrite H in Hrec
           | _ => idtac
           end.
      all: rewrite ?orb_true_r in Hrec; simpl in Hrec; try discriminate.
      all: by destruct (String.eqb (msg_status msg) SUBMITTED),
             (String.eqb (msg_status msg) FILLED).
  - unfold push_orderstatus. rewrite Ho. auto.
Qed.

(** Every event keeps the two tables consistent. *)
Lemma step_keyed env s ev : keyed s -> keyed (step env s ev).
Proof.
  intros Hk.
  assert (Hmono : forall oid, is_Some (orderbyid s !! oid) ->
                              is_Some (orderbyid (step env s ev) !! oid))
    by (intros oid; apply step_tracked).
  revert Hmono. unfold step.
  destruct ev as [msg|msg|ex|cr| |msg|msg|o|o oco| ]; simpl; intros Hmono.
  - destruct (push_orderstatus_ledger msg s) as [He [Hl|(Ht & Hrec & Hrs)]].
    + by apply (keyed_frame s).
    + apply (keyed_ledger s _ (msg_orderId msg)
               (Some (<[msg_filled msg := msg]>
                        (default ∅ (ordstatus s !! msg_orderId msg)))));
        [by rewrite He|done|by rewrite Hrs| |done].
      split; [done|]. intros q m Hm.
      destruct (decide (msg_filled msg = q)) as [<-|Hne].
      * rewrite lookup_insert_eq in Hm. by injection Hm as <-.
      * rewrite lookup_insert_ne in Hm by done.
        by apply (keyed_inner s _ 0 false Hk).
  - apply (keyed_frame s); [| |done|done]; unfold push_ordererror;
      destruct (err_id msg); try done; destruct (orderbyid s !! _); try done;
      by repeat if_cases.
  - destruct Hk as [Hex Hled]. split; [|done]. simpl. intros k ex' Hk'.
    destruct (decide (execId ex = k)) as [<-|Hne].
    + rewrite lookup_insert_eq in Hk'. by injection Hk' as <-.
    + rewrite lookup_insert_ne in Hk' by done. by apply Hex.
  - revert Hmono. unfold push_commissionreport, try_except.
    destruct (reconcile env cr s) as [[] s1|e s1] eqn:Hr; simpl; intros Hmono.
    + apply reconcile_returns in Hr
        as (ex & order & ostatus & b & p & _ & Ho & _ & Hs1).
      cbv zeta in Hs1. destruct Hs1 as (_ & He & Hl & _).
      apply (keyed_ledger s s1 (ex_orderId ex)
               (if String.eqb (msg_status ostatus) FILLED then None
                else Some (delete (cumQty ex)
                             (default ∅ (ordstatus s !! ex_orderId ex)))));
        [| done | | |done].
      * intros k ex'. rewrite He. intros Hk'.
        destruct (decide (cr_execId cr = k)) as [<-|Hne];
          [by rewrite lookup_delete_eq in Hk'
          |by rewrite lookup_delete_ne in Hk'].
      * rewrite Hl. by destruct (String.eqb (msg_status ostatus) FILLED).
      * destruct (String.eqb (msg_status ostatus) FILLED); [done|].
        split; [by eexists|]. apply (keyed_inner s _ _ true Hk).
    + pose proof (reconcile_raises_tables env cr s e s1 Hr)
        as (He & _ & Hl).
      assert (He' : forall k ex', executions s1 !! k = Some ex' ->
                                  executions s !! k = Some ex').
      { intros k ex'. destruct He as [-> | ->]; [done|]. intros Hk'.
        destruct (decide (cr_execId cr = k)) as [<-|Hne];
          [by rewrite lookup_delete_eq in Hk'
          |by rewrite lookup_delete_ne in Hk']. }
      destruct Hl as [Hl|(ex & order & _ & Ho & [Hl|Hl])].
      * destruct Hk as [Hex Hled]. split.
        { intros k ex' Hk'. by apply Hex, He'. }
        simpl. rewrite Hl. intros oid inner Hin.
        destruct (Hled oid inner Hin) as [Ht Hkeys]. split; [|done].
        by apply Hmono.
      * apply (keyed_ledger s _ (ex_orderId ex)
                 (Some (default ∅ (ordstatus s !! ex_orderId ex))));
          [done|done|done| |done].
        split; [by eexists|]. apply (keyed_inner s _ 0 false Hk).
      * apply (keyed_ledger s _ (ex_orderId ex)
                 (Some (delete (cumQty ex)
                          (default ∅ (ordstatus s !! ex_orderId ex)))));
          [done|done|done| |done].
        split; [by eexists|]. apply (keyed_inner s _ _ true Hk).
  - unfold push_portupdate in *.
    destruct (drain_frame (tonotify s) s) as (_ & He & Hl & _).
    by apply (keyed_frame s).
  - apply (keyed_frame s); [| |done|done]; unfold push_openorder;
      destruct msg; try done; by if_cases.
  - apply (keyed_frame s); [| |done|done];
      unfold rebuild_iborder_from_open_order, _load_order, bind, call,
        modify, ret, raise;
      repeat case_match; by simplify_eq.
  - apply (keyed_frame s); [| |done|done]; unfold cancel;
      destruct (orderbyid s !! _); try done; by if_cases.
  - apply (keyed_frame s); [| |done|done];
      unfold submit, bind, gets, subscript, modify, ret, raise;
      repeat case_match; by simplify_eq.
  - apply (keyed_frame s); [| |done|done]; unfold get_notification;
      by destruct (notifs s).
Qed.

(** X13: in every state the engine reaches from its initial state, every
    stored execution sits under its own execution identifier, a ledger
    exists for tracked orders only, and every ledger entry is a recorded
    checkpoint (SUBMITTED with something filled, FILLED, PENDINGSUBMIT or
    PRESUBMITTED with something filled) stored under its own order
    identifier and filled quantity. *)
Theorem tables_consistently_keyed env evs : keyed (run env evs init).
Proof.
  assert (Hgen : forall s, keyed s -> keyed (run env evs s)).
  { induction evs as [|ev evs IH]; intros s Hk; [done|].
    rewrite run_cons. by apply IH, step_keyed. }
  apply Hgen. split; simpl.
  - intros k ex. by rewrite lookup_empty.
  - intros oid inner. by rewrite lookup_empty.
Qed.

(** ** Further properties of the commission reconciler *)

(** X14: a commission report is applied when its execution is stored, the
    order of the execution is tracked and has a commission scheme, the
    checkpoint of the execution is in the ledger, the side is not empty, the
    size is a non-zero float, the time parses and the feed has a close.  The
    order then carries one more fill with the figures of the report (the
    commission split, the costs of the closed and opened parts, the realized
    P&L of the report only if something was closed, the resulting position)
    and is Completed or Partial; the position of the instrument is the
    updated one, the execution is consumed and the order is pending
    notification. *)
Theorem commission_report_applied env cr s ex order ostatus c rest fsize ci
    dt margin :
  executions s !! cr_execId cr = Some ex ->
  orderbyid s !! ex_orderId ex = Some order ->
  default ∅ (ordstatus s !! ex_orderId ex) !! cumQty ex = Some ostatus ->
  side ex = String c rest ->
  float_of_Z (if Ascii.eqb c "B" then shares ex else - shares ex)
  = inr fsize ->
  PrimFloat.eqb fsize 0 = false ->
  comminfo order = Some ci ->
  (forall s0, execution_time env (time ex) s0 = Returns dt s0) ->
  close0 env (data order) = inr margin ->
  let position := default flat (positions s !! tradecontract (data order)) in
  let updated := position_update env position fsize (ex_price ex) in
  let opened := fst (snd updated) in
  let closed := snd (snd updated) in
  let closedcomm := (commission cr * closed / fsize)%float in
  let bit :=
    {| eb_dt := dt; eb_size := fsize; eb_price := ex_price ex;
       eb_closed := closed;
       eb_closedvalue := getoperationcost ci closed (pos_price position);
       eb_closedcomm := closedcomm;
       eb_opened := opened;
       eb_openedvalue := getoperationcost ci opened (ex_price ex);
       eb_openedcomm := (commission cr - closedcomm)%float;
       eb_margin := margin;
       eb_pnl := if PrimFloat.eqb closed 0 then 0%float
                 else realizedPNL cr;
       eb_psize := pos_size (fst updated);
       eb_pprice := pos_price (fst updated) |} in
  exists s',
    reconcile env cr s = Returns tt s'
    /\ orderbyid s' !! ex_orderId ex
       = Some (set_status
                 (if String.eqb (msg_status ostatus) FILLED then Completed
                  else Partial)
                 (add_executed bit order))
    /\ positions s' !! tradecontract (data order) = Some (fst updated)
    /\ executions s' !! cr_execId cr = None
    /\ ex_orderId ex ∈ tonotify s'.
Proof.
  intros Hex Ho Hl Hside Hsize Hnz Hci Htime Hclose.
  intros position updated opened closed closedcomm bit.
  unfold reconcile.
  erewrite bind_returns; [|unfold pop_execution; rewrite Hex; reflexivity].
  erewrite bind_returns;
    [|unfold bind, gets, subscript; simpl; rewrite Ho; reflexivity].
  erewrite bind_returns;
    [|unfold pop_ordstatus; simpl; rewrite Hl; reflexivity].
  erewrite bind_returns; [|reflexivity].
  rewrite Hside. erewrite bind_returns; [|reflexivity]. cbv beta zeta.
  rewrite Hsize. erewrite bind_returns; [|reflexivity].
  rewrite bind_modify.
  erewrite bind_returns;
    [|unfold split_commission; simpl; rewrite Hnz; reflexivity].
  rewrite Hci. erewrite bind_returns; [|reflexivity].
  erewrite bind_returns; [|apply Htime].
  rewrite Hclose. erewrite bind_returns; [|reflexivity].
  rewrite bind_modify. simpl.
  fold position. fold updated. fold closed. fold opened. fold closedcomm.
  fold bit.
  destruct (String.eqb (msg_status ostatus) FILLED).
  - erewrite bind_returns;
      [|rewrite bind_modify; unfold pop_ledger; simpl;
        rewrite lookup_insert_eq; reflexivity].
    eexists. split; [reflexivity|]. simpl.
    case_bool_decide as Hin; simpl.
    + rewrite !lookup_insert_eq, lookup_delete_eq. by repeat split.
    + rewrite !lookup_insert_eq, lookup_delete_eq. repeat split.
      apply elem_of_app. right. by apply list_elem_of_singleton.
  - rewrite bind_modify.
    eexists. split; [reflexivity|]. simpl.
    case_bool_decide as Hin; simpl.
    + rewrite !lookup_insert_eq, lookup_delete_eq. by repeat split.
    + rewrite !lookup_insert_eq, lookup_delete_eq. repeat split.
      apply elem_of_app. right. by apply list_elem_of_singleton.
Qed.

Lemma commission_report_applied_witness :
  let s := push_execution (sample_execution "BOT" 10)
             (push_orderstatus (status_msg 7 FILLED 10) (tracking Accepted)) in
  let cr := sample_report 1 in
  let bit :=
    {| eb_dt := 738000; eb_size := 10; eb_price := 100;
       eb_closed := 0; eb_closedvalue := 0; eb_closedcomm := 0;
       eb_opened := 10; eb_openedvalue := 1000; eb_openedcomm := 1;
       eb_margin := 100; eb_pnl := 0; eb_psize := 10; eb_pprice := 100 |} in
  float_of_Z 10 = inr 10%float
  /\ PrimFloat.eqb 10 0 = false
  /\ exists s',
       reconcile sample_env cr s = Returns tt s'
       /\ orderbyid s' !! 7
          = Some (set_status Completed
                    (add_executed bit (sample_order 7 Accepted)))
       /\ positions s' !! 265598 = Some {| pos_size := 10; pos_price := 100 |}
       /\ executions s' !! "0001f4e8.1"%string = None
       /\ 7 ∈ tonotify s'.
Proof.
  intros s cr bit.
  assert (H1 : float_of_Z 10 = inr 10%float) by reflexivity.
  assert (H2 : PrimFloat.eqb 10 0 = false) by reflexivity.
  split; [exact H1|]. split; [exact H2|].
  exact (commission_report_applied sample_env cr s
           (sample_execution "BOT" 10) (sample_order 7 Accepted)
           (status_msg 7 FILLED 10) "B"%char "OT"%string 10%float
           {| mult := 1; stocklike := true |} 738000%float 100%float
           eq_refl eq_refl eq_refl eq_refl H1 H2 eq_refl
           (fun s0 => eq_refl) eq_refl).
Defined.

(** X15: a report that fails after the position update is not rolled back.
    For a tracked order without commission scheme whose joins succeed, the
    handler returns with AttributeError logged; the position of the
    instrument has been updated by the fill and the execution and the ledger
    entry are consumed, while the order table, the notification queue and
    the pending-notify list are as before: the order shows no fill and is not
    notified. *)
Theorem failed_report_keeps_position_update env cr s ex order ostatus c rest
    fsize :
  executions s !! cr_execId cr = Some ex ->
  orderbyid s !! ex_orderId ex = Some order ->
  default ∅ (ordstatus s !! ex_orderId ex) !! cumQty ex = Some ostatus ->
  side ex = String c rest ->
  float_of_Z (if Ascii.eqb c "B" then shares ex else - shares ex)
  = inr fsize ->
  PrimFloat.eqb fsize 0 = false ->
  comminfo order = None ->
  let position := default flat (positions s !! tradecontract (data order)) in
  let updated := position_update env position fsize (ex_price ex) in
  exists s',
    push_commissionreport env cr s = Returns tt s'
    /\ trace s'
       = trace s ++ [LogInfo "getposition"; LogException AttributeError]
    /\ positions s' = <[tradecontract (data order) := fst updated]> (positions s)
    /\ executions s' = delete (cr_execId cr) (executions s)
    /\ default ∅ (ordstatus s' !! ex_orderId ex) !! cumQty ex = None
    /\ orderbyid s' = orderbyid s /\ notifs s' = notifs s
    /\ tonotify s' = tonotify s.
Proof.
  intros Hex Ho Hl Hside Hsize Hnz Hci position updated.
  unfold push_commissionreport, try_except, reconcile.
  erewrite bind_returns; [|unfold pop_execution; rewrite Hex; reflexivity].
  erewrite bind_returns;
    [|unfold bind, gets, subscript; simpl; rewrite Ho; reflexivity].
  erewrite bind_returns;
    [|unfold pop_ordstatus; simpl; rewrite Hl; reflexivity].
  erewrite bind_returns; [|reflexivity].
  rewrite Hside. erewrite bind_returns; [|reflexivity]. cbv beta zeta.
  rewrite Hsize. erewrite bind_returns; [|reflexivity].
  rewrite bind_modify.
  erewrite bind_returns;
    [|unfold split_commission; simpl; rewrite Hnz; reflexivity].
  rewrite Hci. erewrite bind_raises; [|reflexivity].
  eexists. split; [reflexivity|]. simpl.
  rewrite <- app_assoc, lookup_insert_eq. simpl. rewrite lookup_delete_eq.
  by repeat split.
Qed.

Lemma failed_report_keeps_position_update_witness :
  let order :=
    {| orderId := 7; permId := "9001"; clientId := 1; status := Accepted;
       _willexpire := false; comminfo := None;
       data := {| dataname := "AAPL"; tradecontract := 265598 |};
       executed := [] |} in
  let s := push_execution (sample_execution "SLD" 10)
             (push_orderstatus (status_msg 7 FILLED 10)
                (set_orderbyid {[ 7 := order ]} init)) in
  let cr := sample_report 1 in
  comminfo order = None
  /\ exists s',
       push_commissionreport sample_env cr s = Returns tt s'
       /\ trace s' = [LogInfo "getposition"; LogException AttributeError]
       /\ positions s'
          = <[265598 := {| pos_size := (-10)%float; pos_price := 100 |}]> ∅
       /\ executions s' = delete (cr_execId cr) (executions s)
       /\ default ∅ (ordstatus s' !! 7) !! 10 = None
       /\ orderbyid s' = orderbyid s /\ notifs s' = notifs s
       /\ tonotify s' = tonotify s.
Proof.
  intros order s cr.
  assert (H1 : comminfo order = None) by reflexivity.
  split; [exact H1|].
  exact (failed_report_keeps_position_update sample_env cr s
           (sample_execution "SLD" 10) order (status_msg 7 FILLED 10)
           "S"%char "LD"%string (-10)%float
           eq_refl eq_refl eq_refl eq_refl eq_refl eq_refl H1).
Defined.

(** ** The timestamp of an execution *)

Lemma split_on_nonempty c s : split_on c s <> [].
Proof. destruct s as [|a s]; simpl; [done|]. by repeat case_match. Qed.

Lemma split_on_no_sep c s : has_char c s = false -> split_on c s = [s].
Proof.
  induction s as [|a s IH]; simpl; [done|]. intros H.
  apply orb_false_iff in H as [Ha Hs]. by rewrite (IH Hs), Ha.
Qed.

Lemma split_on_app c x y :
  split_on c (x +:+ String c y) = split_on c x ++ split_on c y.
Proof.
  induction x as [|a x IH]; simpl.
  - pose proof (split_on_nonempty c y).
    destruct (split_on c y); [done|]. by rewrite Ascii.eqb_refl.
  - rewrite IH. pose proof (split_on_nonempty c x).
    destruct (split_on c x) as [|w ws]; [done|]. simpl. by case_match.
Qed.

Lemma concat_split_on c s :
  String.concat (String c EmptyString) (split_on c s) = s.
Proof.
  induction s as [|a s IH]; simpl; [done|].
  pose proof (split_on_nonempty c s).
  destruct (split_on c s) as [|w ws]; [done|].
  destruct (Ascii.eqb_spec a c) as [->|Hne].
  - simpl in *. by rewrite IH.
  - destruct ws as [|w' ws]; simpl in *; by rewrite <- IH.
Qed.

(** X16: the text of an execution time that ends in a space and a token
    without space is parsed without that token, with the date-and-time
    format, whatever the token is; the weekday format is applied only to a
    text without any space, and to an absent time. *)
Theorem execution_time_formats env s :
  (forall text zone,
     has_char " " zone = false ->
     execution_time env (Some (text +:+ " " +:+ zone)) s
     = call (strptime_date2num env (Some text) "%Y%m%d %H:%M:%S") s)
  /\ (forall text,
        has_char " " text = false ->
        execution_time env (Some text) s
        = call (strptime_date2num env (Some text) "%Y%m%d %H:%M:%S %A") s)
  /\ execution_time env None s
     = call (strptime_date2num env None "%Y%m%d %H:%M:%S %A") s.
Proof.
  split; [|split; [|reflexivity]].
  - intros text zone Hzone. unfold execution_time.
    change (text +:+ " " +:+ zone) with (text +:+ String " " zone).
    rewrite split_on_app, (split_on_no_sep _ zone Hzone).
    rewrite removelast_last, concat_split_on.
    pose proof (split_on_nonempty " " text).
    destruct (split_on " " text) as [|w [|w' ws]]; done.
  - intros text Htext. unfold execution_time.
    by rewrite (split_on_no_sep _ text Htext).
Qed.

Lemma execution_time_formats_witness :
  has_char " " "US/Eastern" = false
  /\ execution_time sample_env (Some "20240102 10:30:00 US/Eastern") init
     = call (strptime_date2num sample_env (Some "20240102 10:30:00")
               "%Y%m%d %H:%M:%S") init
  /\ has_char " " "10:30:00" = false
  /\ execution_time sample_env (Some "20240102 10:30:00") init
     = call (strptime_date2num sample_env (Some "20240102")
               "%Y%m%d %H:%M:%S") init.
Proof.
  assert (H1 : has_char " " "US/Eastern" = false) by reflexivity.
  assert (H2 : has_char " " "10:30:00" = false) by reflexivity.
  exact (conj H1 (conj
    (proj1 (execution_time_formats sample_env init)
       "20240102 10:30:00"%string "US/Eastern"%string H1)
    (conj H2
       (proj1 (execution_time_formats sample_env init)
          "20240102"%string "10:30:00"%string H2)))).
Defined.

(** ** The commission scheme *)

Lemma abs_opp (x : float) : PrimFloat.abs (- x) = PrimFloat.abs x.
Proof.
  apply Prim2SF_inj. rewrite !abs_spec, opp_spec.
  by destruct (Prim2SF x).
Qed.

(** X17: the cost of an operation and the value of a size are the same
    figure, do not depend on the commission scheme, and are the same for a
    fill and for the opposite fill: a sale costs what the purchase of the same
    size at the same price costs. *)
Theorem operation_cost_ignores_side ci ci' size price :
  getoperationcost ci (- size) price = getoperationcost ci size price
  /\ getvaluesize ci size price = getoperationcost ci size price
  /\ getoperationcost ci' size price = getoperationcost ci size price.
Proof.
  unfold getoperationcost, getvaluesize. by rewrite abs_opp.
Qed.

(** ** Open-order snapshots: the queue, its drain and the reconstruction *)

Lemma rebuild_foreign env msg s :
  oo_clientId msg <> ib_clientId env ->
  rebuild_iborder_from_open_order env msg s = Returns tt s.
Proof.
  intros Hne. unfold rebuild_iborder_from_open_order.
  apply Z.eqb_neq in Hne. by rewrite Hne.
Qed.

(** The reconstruction leaves the queue of snapshots alone, however it
    ends. *)
Lemma rebuild_opened_orders env msg s :
  opened_orders (final (rebuild_iborder_from_open_order env msg s))
  = opened_orders s.
Proof.
  unfold rebuild_iborder_from_open_order, _load_order, bind, call, modify,
    ret, raise.
  repeat case_match; by simplify_eq.
Qed.

Lemma drain_opened_sentinel env queue s :
  None ∈ queue -> is_Some (drain_opened env queue s).
Proof.
  revert s. induction queue as [|[msg|] rest IH]; intros s Hin; simpl.
  - by apply elem_of_nil in Hin.
  - apply elem_of_cons in Hin as [Hin|Hin]; [done|].
    destruct (rebuild_iborder_from_open_order env msg _); [by apply IH|].
    by eexists.
  - by eexists.
Qed.

Lemma drain_opened_foreign env msgs s :
  Forall (fun msg => oo_clientId msg <> ib_clientId env) msgs ->
  drain_opened env (Some <$> msgs) s = None.
Proof.
  intros Hall. revert s. induction Hall as [|msg msgs Hmsg _ IH]; intros s;
    [done|].
  simpl. by rewrite (rebuild_foreign env msg _ Hmsg), IH.
Qed.

(** X18: [next] waits only for a sentinel that has not arrived.  With an
    empty queue it just marks the notification boundary; with the
    end-of-snapshots sentinel somewhere in the queue it does not wait
    (it returns or raises); with a non-empty queue of snapshots of other
    clients and no sentinel it waits. *)
Theorem next_waits_for_sentinel_only env s :
  (opened_orders s = [] ->
   next env s = Some (Returns tt (set_notifs (notifs s ++ [None]) s)))
  /\ (None ∈ opened_orders s -> is_Some (next env s))
  /\ (opened_orders s <> [] ->
      Forall (fun m => exists msg, m = Some msg
                         /\ oo_clientId msg <> ib_clientId env)
        (opened_orders s) ->
      next env s = None).
Proof.
  unfold next. split; [|split].
  - by intros ->.
  - intros Hin. destruct (opened_orders s) as [|m rest] eqn:Hq.
    + by apply elem_of_nil in Hin.
    + destruct (drain_opened_sentinel env (m :: rest) s Hin) as [out ->].
      destruct out; by eexists.
  - intros Hne Hall. destruct (opened_orders s) as [|m rest] eqn:Hq; [done|].
    assert (Hmsgs : exists msgs,
               m :: rest = Some <$> msgs
               /\ Forall (fun msg => oo_clientId msg <> ib_clientId env) msgs).
    { clear Hq Hne. induction Hall as [|m' q' (msg & -> & Hmsg) _ IH].
      - by exists [].
      - destruct IH as (msgs & -> & Hmsgs). exists (msg :: msgs).
        split; [done|]. by constructor. }
    destruct Hmsgs as (msgs & -> & Hmsgs).
    by rewrite (drain_opened_foreign env msgs s Hmsgs).
Qed.

Lemma next_waits_for_sentinel_only_witness :
  let s0 := tracking Accepted in
  let s1 := push_openorder (Some (sample_openorder 8 2)) s0 in
  let s2 := push_openorder None s1 in
  opened_orders s0 = []
  /\ next sample_env s0
     = Some (Returns tt (set_notifs (notifs s0 ++ [None]) s0))
  /\ None ∈ opened_orders s2
  /\ is_Some (next sample_env s2)
  /\ opened_orders s1 <> []
  /\ next sample_env s1 = None.
Proof.
  intros s0 s1 s2.
  assert (H0 : opened_orders s0 = []) by reflexivity.
  assert (H2 : None ∈ opened_orders s2).
  { apply elem_of_cons. right. apply elem_of_cons. by left. }
  assert (H1 : opened_orders s1 <> []) by discriminate.
  assert (H1' : Forall (fun m => exists msg, m = Some msg
                          /\ oo_clientId msg <> ib_clientId sample_env)
                  (opened_orders s1)).
  { repeat constructor. eexists. split; [reflexivity|discriminate]. }
  pose proof (next_waits_for_sentinel_only sample_env s0) as (Ha & _ & _).
  pose proof (next_waits_for_sentinel_only sample_env s2) as (_ & Hb & _).
  pose proof (next_waits_for_sentinel_only sample_env s1) as (_ & _ & Hc).
  exact (conj H0 (conj (Ha H0) (conj H2 (conj (Hb H2)
    (conj H1 (Hc H1 H1')))))).
Defined.

(** X19: [next] consumes the queue up to and including the first sentinel
    and no further: when the snapshots before it are all of other clients,
    it returns with the messages after the sentinel still queued, one
    boundary marker added to the notifications, and nothing else changed. *)
Theorem next_stops_at_first_sentinel env s msgs rest :
  opened_orders s = (Some <$> msgs) ++ None :: rest ->
  Forall (fun msg => oo_clientId msg <> ib_clientId env) msgs ->
  next env s
  = Some (Returns tt
            (set_notifs (notifs s ++ [None]) (set_opened_orders rest s))).
Proof.
  intros Hq Hall. unfold next. rewrite Hq.
  assert (Hd : forall s0,
             drain_opened env ((Some <$> msgs) ++ None :: rest) s0
             = Some (Returns tt (set_opened_orders rest s0))).
  { clear Hq. induction Hall as [|msg msgs Hmsg _ IH]; intros s0; [done|].
    simpl. rewrite (rebuild_foreign env msg _ Hmsg), IH. reflexivity. }
  destruct ((Some <$> msgs) ++ None :: rest) as [|m q] eqn:Hq'.
  - by destruct msgs.
  - by rewrite Hd.
Qed.

Lemma next_stops_at_first_sentinel_witness :
  let s := push_openorder (Some (sample_openorder 9 2))
             (push_openorder None
                (push_openorder (Some (sample_openorder 8 2))
                   (tracking Accepted))) in
  opened_orders s
  = (Some <$> [sample_openorder 8 2]) ++ None :: [Some (sample_openorder 9 2)]
  /\ Forall (fun msg => oo_clientId msg <> ib_clientId sample_env)
       [sample_openorder 8 2]
  /\ next sample_env s
     = Some (Returns tt
               (set_notifs (notifs s ++ [None])
                  (set_opened_orders [Some (sample_openorder 9 2)] s))).
Proof.
  intros s.
  assert (H1 : opened_orders s
               = (Some <$> [sample_openorder 8 2])
                 ++ None :: [Some (sample_openorder 9 2)]) by reflexivity.
  assert (H2 : Forall (fun msg => oo_clientId msg <> ib_clientId sample_env)
                 [sample_openorder 8 2])
    by (repeat constructor; discriminate).
  exact (conj H1 (conj H2
    (next_stops_at_first_sentinel sample_env s _ _ H1 H2))).
Defined.

(** X20: open-order snapshots are queued in the order they arrive: after
    any sequence of [push_openorder] calls the queue is the former queue
    followed by the sentinels and the snapshots of untracked orders of the
    sequence, in order; snapshots of tracked orders are left out, and nothing
    but the queue has changed. *)
Theorem snapshots_queued_in_order env msgs s :
  let s' := run env (OpenOrder <$> msgs) s in
  opened_orders s'
  = opened_orders s
    ++ List.filter
         (fun m => match m with
                   | None => true
                   | Some msg =>
                     negb (bool_decide
                             (is_Some (orderbyid s !! oo_orderId msg)))
                   end) msgs
  /\ s' = set_opened_orders (opened_orders s') s.
Proof.
  revert s. induction msgs as [|m msgs IH]; intros s.
  - simpl. rewrite app_nil_r. by destruct s.
  - rewrite fmap_cons, run_cons.
    change (step env s (OpenOrder m)) with (push_openorder m s).
    destruct (IH (push_openorder m s)) as [Hq Hs'].
    set (s1 := run env (OpenOrder <$> msgs) (push_openorder m s)) in *.
    assert (Hob : orderbyid (push_openorder m s) = orderbyid s).
    { unfold push_openorder. destruct m; [|done]. by if_cases. }
    rewrite Hob in Hq. split.
    + rewrite Hq. unfold push_openorder. destruct m as [msg|]; simpl.
      * destruct (bool_decide _); simpl; [done|]. by rewrite <- app_assoc.
      * by rewrite <- app_assoc.
    + rewrite Hs' at 1. unfold push_openorder.
      destruct m as [msg|]; [destruct (bool_decide _)|]; by destruct s.
Qed.

(** The constructor, given the text of an IB order type as execution type,
    yields no order object: what the base classes raise, or KeyError. *)
Lemma IBOrder_init_text env text base :
  exists e, IBOrder_init env (ExecText text) base = inl e
            /\ (forall order, base = inr order -> e = KeyError).
Proof.
  destruct base as [e|order]; simpl.
  - exists e. split; [done|]. intros ? Hbase. discriminate Hbase.
  - by exists KeyError.
Qed.

(** X21: the reconstruction of an order from a snapshot registers and
    notifies nothing, whatever the snapshot, the order store and the state:
    the order table and the notification queue are as before.  The order
    object is constructed with the order type of the snapshot, a text such
    as LMT, as execution type, and no text is a key of [_IBOrdTypes].  For a
    snapshot of the engine's own client with a file in the order store: when
    the file holds another order identifier, an error is printed after the
    read of the store and the call returns; when it holds the order
    identifier of the snapshot, the call raises after the read of the store,
    and once the data feed, the strategy and the base object are obtained
    the exception is KeyError. *)
Theorem reconstruction_registers_nothing env msg s od :
  let path := (save_path env +:+ "/" +:+ oo_permId msg +:+ ".json")%string in
  let s' := final (rebuild_iborder_from_open_order env msg s) in
  (orderbyid s' = orderbyid s /\ notifs s' = notifs s
   /\ tonotify s' = tonotify s)
  /\ (oo_clientId msg = ib_clientId env ->
      files env !! path = Some od ->
      (od_order_id od <> oo_orderId msg ->
       rebuild_iborder_from_open_order env msg s
       = Returns tt
           (emit (PrintError "order data wrong" (oo_orderId msg))
              (emit (StoreRead path) s)))
      /\ (od_order_id od = oo_orderId msg ->
          exists e,
            rebuild_iborder_from_open_order env msg s
            = Raises e (emit (StoreRead path) s)
            /\ forall feed owner base,
                 getdatabyname env (od_dataname od) = inr feed ->
                 getstratbyname env (od_stratname od) = inr owner ->
                 OrderBase_init env msg od feed owner = inr base ->
                 e = KeyError)).
Proof.
  intros path s'. split.
  - subst s'.
    unfold rebuild_iborder_from_open_order, _load_order, bind, call, modify,
      ret, raise.
    destruct (negb _); [done|]. simpl.
    destruct (files env !! _) as [od'|]; [|done].
    destruct (negb _); [done|].
    destruct (getdatabyname env _) as [?|feed]; [done|].
    destruct (getstratbyname env _) as [?|owner]; [done|].
    destruct (IBOrder_init_text env (oo_orderType msg)
                (OrderBase_init env msg od' feed owner)) as (e & -> & _).
    done.
  - intros Hclient Hfile. apply Z.eqb_eq in Hclient. split.
    + intros Hid. unfold rebuild_iborder_from_open_order. rewrite Hclient.
      simpl. unfold _load_order. apply Z.eqb_neq in Hid.
      cbv [bind modify ret]. fold path. by rewrite Hfile, Hid.
    + intros Hid. apply Z.eqb_eq in Hid.
      unfold rebuild_iborder_from_open_order. rewrite Hclient. simpl.
      unfold _load_order. cbv [bind modify ret call raise]. fold path.
      rewrite Hfile, Hid. simpl.
      destruct (getdatabyname env _) as [e1|feed] eqn:Hfeed.
      { exists e1. split; [done|]. intros ? ? ? Hf. discriminate Hf. }
      destruct (getstratbyname env _) as [e2|owner] eqn:Howner.
      { exists e2. split; [done|]. intros ? ? ? _ Ho. discriminate Ho. }
      destruct (IBOrder_init_text env (oo_orderType msg)
                  (OrderBase_init env msg od feed owner)) as (e & He & Hkey).
      rewrite He. exists e. split; [done|].
      intros feed' owner' base Hf Ho Hb.
      injection Hf as <-. injection Ho as <-.
      exact (Hkey base Hb).
Qed.

Lemma reconstruction_registers_nothing_witness :
  let od := {| od_order_id := 8; od_dataname := "AAPL";
               od_stratname := "strat"; od_size := 10;
               od_price := 100; od_pricelimit := 0 |} in
  let base := {| orderId := 8; permId := "9001"; clientId := 1;
                 status := Created; _willexpire := false; comminfo := None;
                 data := {| dataname := "AAPL"; tradecontract := 265598 |};
                 executed := [] |} in
  files store_env !! "TradeData/9001.json"%string = Some od
  /\ OrderBase_init store_env (sample_openorder 8 1) od
       {| dataname := "AAPL"; tradecontract := 265598 |} 0 = inr base
  /\ (exists e,
        rebuild_iborder_from_open_order store_env (sample_openorder 8 1)
          (tracking Accepted)
        = Raises e
            (emit (StoreRead "TradeData/9001.json") (tracking Accepted))
        /\ e = KeyError)
  /\ od_order_id od <> 9
  /\ rebuild_iborder_from_open_order store_env (sample_openorder 9 1)
       (tracking Accepted)
     = Returns tt
         (emit (PrintError "order data wrong" 9)
            (emit (StoreRead "TradeData/9001.json") (tracking Accepted))).
Proof.
  intros od base.
  assert (H1 : files store_env !! "TradeData/9001.json"%string = Some od)
    by reflexivity.
  assert (H2 : od_order_id od <> 9) by discriminate.
  pose proof (reconstruction_registers_nothing store_env
                (sample_openorder 8 1) (tracking Accepted) od)
    as [_ Ha].
  pose proof (reconstruction_registers_nothing store_env
                (sample_openorder 9 1) (tracking Accepted) od)
    as [_ Hb].
  destruct (Ha eq_refl H1) as [_ Ha'].
  destruct (Ha' eq_refl) as (e & Hrun & Hkey).
  destruct (Hb eq_refl H1) as [Hb' _].
  refine (conj H1 (conj eq_refl (conj _ (conj H2 (Hb' H2))))).
  exists e. split; [exact Hrun|].
  exact (Hkey _ 0 base eq_refl eq_refl eq_refl).
Defined.

(** ** The calls of the strategy layer *)

(** X22: [submit] of an order without OCO partner, or with a tracked one,
    returns the order as Submitted, tracks it under its own identifier in
    place of whatever was tracked there, sends one placement request and
    queues one notification; the status the engine reports for the order is
    Submitted, and a cancellation of the order is then forwarded to the
    gateway.  With an untracked OCO partner it raises KeyError and
    registers, sends and notifies nothing. *)
Theorem submit_registers_and_places order oco s :
  let o := OrderBase.submit order in
  ((oco = None \/ exists k p, oco = Some k /\ orderbyid s !! k = Some p) ->
   exists s',
     submit order oco s = Returns o s'
     /\ orderbyid s' = <[orderId order := o]> (orderbyid s)
     /\ notifs s' = notifs s ++ [Some (OrderBase.clone o)]
     /\ gateway_requests s'
        = gateway_requests s ++ [GwPlaceOrder (orderId order)]
     /\ orderstatus order s' = Submitted
     /\ gateway_requests (cancel o s')
        = gateway_requests s
          ++ [GwPlaceOrder (orderId order); GwCancelOrder (orderId order)])
  /\ (forall k, oco = Some k -> orderbyid s !! k = None ->
      submit order oco s = Raises KeyError s).
Proof.
  intros o. split.
  - intros Hoco.
    assert (Hs : submit order oco s
                 = Returns o
                     (notify o (emit (GwPlaceOrder (orderId o))
                                  (store_order (orderId o) o s)))).
    { unfold submit, bind, gets, subscript, modify, ret.
      destruct Hoco as [->|(k & p & -> & Hk)]; [done|]. by rewrite Hk. }
    eexists. split; [exact Hs|]. simpl.
    unfold orderstatus, cancel, gateway_requests; simpl.
    rewrite lookup_insert_eq. simpl.
    rewrite !List.filter_app. simpl. rewrite <- app_assoc. by repeat split.
  - intros k -> Hk. unfold submit, bind, gets, subscript, modify, ret, raise.
    by rewrite Hk.
Qed.

Lemma submit_registers_and_places_witness :
  let order := sample_order 8 Created in
  let o := OrderBase.submit order in
  (exists s',
     submit order None (tracking Accepted) = Returns o s'
     /\ orderbyid s' = <[8 := o]> (orderbyid (tracking Accepted))
     /\ notifs s' = [Some o]
     /\ gateway_requests s' = [GwPlaceOrder 8]
     /\ orderstatus order s' = Submitted
     /\ gateway_requests (cancel o s') = [GwPlaceOrder 8; GwCancelOrder 8])
  /\ orderbyid (tracking Accepted) !! 9 = None
  /\ submit order (Some 9) (tracking Accepted)
     = Raises KeyError (tracking Accepted).
Proof.
  intros order o.
  pose proof (submit_registers_and_places order None (tracking Accepted))
    as [Ha _].
  pose proof (submit_registers_and_places order (Some 9) (tracking Accepted))
    as [_ Hb].
  exact (conj (Ha (or_introl eq_refl))
           (conj eq_refl (Hb 9 eq_refl eq_refl))).
Defined.

(** X23: once the gateway has confirmed a cancellation (by a CANCELLED or
    APICANCELLED status event or by error 202) for a tracked order that was
    alive, a further [cancel] of the tracked order sends nothing when the
    order has become Cancelled; when it has become Expired the request is
    still forwarded, since [cancel] only looks for the Cancelled status. *)
Theorem cancel_after_confirmation env s o ev :
  orderbyid s !! orderId o = Some o ->
  alive o = true ->
  is_cancel_for (orderId o) ev || is_error_for (orderId o) 202 ev = true ->
  let s' := step env s ev in
  exists o',
    orderbyid s' !! orderId o = Some o'
    /\ (status o' = Cancelled \/ status o' = Expired)
    /\ cancel o' s'
       = if bool_decide (status o' = Expired)
         then emit (GwCancelOrder (orderId o)) s' else s'.
Proof.
  intros Ho Halive Hev s'.
  assert (Hnc : status o <> Cancelled /\ status o <> Expired).
  { unfold alive in Halive. destruct (status o); done. }
  assert (Hs' : exists o', orderId o' = orderId o
                  /\ (status o' = Cancelled \/ status o' = Expired)
                  /\ s' = notify o' (store_order (orderId o) o' s)).
  { subst s'. apply orb_true_iff in Hev as [Hev|Hev].
    - rewrite (cancel_first env s _ o ev Ho (proj1 Hnc) (proj2 Hnc) Hev).
      cbv zeta. destruct (_willexpire o); eexists; (split; [|split; [|done]]);
        simpl; auto.
    - destruct ev as [|msg| | | | | | | |]; try discriminate. simpl in Hev.
      apply andb_true_iff in Hev as [Hid Hcode].
      apply bool_decide_eq_true in Hid. unfold step; simpl.
      unfold push_ordererror. rewrite Hid, Ho, Hcode, Halive. simpl.
      eexists. split; [|split; [|done]]; simpl; auto. }
  destruct Hs' as (o' & Hid & Hst & ->). exists o'.
  assert (Ho' : orderbyid (notify o' (store_order (orderId o) o' s))
                  !! orderId o = Some o').
  { by rewrite orderbyid_notify, lookup_store_order, decide_True. }
  split; [exact Ho'|]. split; [exact Hst|].
  unfold cancel. rewrite Hid, Ho'.
  destruct Hst as [Hst|Hst]; rewrite Hst; reflexivity.
Qed.

Lemma cancel_after_confirmation_witness :
  let o := sample_order 7 Accepted in
  let ev := OrderStatus (status_msg 7 CANCELLED 0) in
  let s' := step sample_env (tracking Accepted) ev in
  orderbyid (tracking Accepted) !! orderId o = Some o
  /\ alive o = true
  /\ is_cancel_for (orderId o) ev || is_error_for (orderId o) 202 ev = true
  /\ exists o',
       orderbyid s' !! orderId o = Some o'
       /\ (status o' = Cancelled \/ status o' = Expired)
       /\ cancel o' s'
          = if bool_decide (status o' = Expired)
            then emit (GwCancelOrder (orderId o)) s' else s'.
Proof.
  intros o ev s'.
  assert (H1 : orderbyid (tracking Accepted) !! orderId o = Some o)
    by reflexivity.
  assert (H2 : alive o = true) by reflexivity.
  assert (H3 : is_cancel_for (orderId o) ev
               || is_error_for (orderId o) 202 ev = true) by reflexivity.
  exact (conj H1 (conj H2 (conj H3
    (cancel_after_confirmation sample_env (tracking Accepted) o ev
       H1 H2 H3)))).
Defined.

(** ** What waits for a commission report, and what only it moves *)

(** What a reconciliation that raises has done to the positions. *)
Lemma reconcile_raises_positions env cr s e s' :
  reconcile env cr s = Raises e s' ->
  positions s' = positions s
  \/ exists ex order p,
       executions s !! cr_execId cr = Some ex
       /\ orderbyid s !! ex_orderId ex = Some order
       /\ positions s' = <[tradecontract (data order) := p]> (positions s).
Proof.
  intros H. unfold reconcile in H.
  bind_cases H;
    [apply pop_execution_returns in E as [Hex ->]
    |apply pop_execution_raises in E as (_ & _ & ->); auto].
  bind_cases H;
    [apply subscript_returns in E as [Ho ->]
    |apply subscript_raises in E as (_ & _ & ->); simpl; auto].
  simpl in Ho.
  bind_cases H;
    [apply pop_ordstatus_returns in E as [_ ->]
    |apply pop_ordstatus_raises in E as (_ & _ & ->); simpl; auto].
  bind_cases H;
    [apply getposition_returns in E as [-> ->]
    |by apply getposition_raises in E].
  bind_cases H;
    [apply call_returns in E as [_ ->]
    |apply call_raises in E as [_ ->]; simpl; auto].
  bind_cases H;
    [apply call_returns in E as [_ ->]
    |apply call_raises in E as [_ ->]; simpl; auto].
  bind_cases H.
  bind_cases H;
    [apply call_returns in E as [_ ->]
    |apply call_raises in E as [_ ->]; simpl; eauto 10].
  bind_cases H;
    [apply call_returns in E as [_ ->]
    |apply call_raises in E as [_ ->]; simpl; eauto 10].
  bind_cases H;
    [apply execution_time_returns in E as ->
    |apply execution_time_raises in E as ->; simpl; eauto 10].
  bind_cases H;
    [apply call_returns in E as [_ ->]
    |apply call_raises in E as [_ ->]; simpl; eauto 10].
  bind_cases H.
  destruct (String.eqb _ FILLED).
  - bind_cases H; [unfold modify in H; discriminate H|].
    rewrite bind_modify in E. unfold pop_ledger in E. simpl in E.
    rewrite lookup_insert_eq in E. discriminate E.
  - bind_cases H. unfold modify in H. discriminate H.
Qed.

(** What the events other than a commission report leave alone. *)
Lemma step_frame env s ev :
  is_commission ev = false ->
  positions (step env s ev) = positions s
  /\ (forall k, touches_execution k ev = false ->
        executions (step env s ev) !! k = executions s !! k).
Proof.
  intros Hc. unfold step.
  destruct ev as [msg|msg|ex|cr| |msg|msg|o|o oco| ]; try discriminate;
    simpl.
  - unfold push_orderstatus. destruct (orderbyid s !! _); [|done].
    by repeat if_cases.
  - unfold push_ordererror. destruct (err_id msg); [|done].
    destruct (orderbyid s !! _); [|done]. by repeat if_cases.
  - split; [done|]. intros k Hk. apply String.eqb_neq in Hk.
    by rewrite lookup_insert_ne.
  - unfold push_portupdate.
    destruct (drain_frame (tonotify s) s) as (_ & -> & _ & -> & _). done.
  - unfold push_openorder. destruct msg; [|done]. by if_cases.
  - unfold rebuild_iborder_from_open_order, _load_order, bind, call, modify,
      ret, raise.
    repeat case_match; by simplify_eq.
  - unfold cancel. destruct (orderbyid s !! _); [|done]. by if_cases.
  - unfold submit, bind, gets, subscript, modify, ret, raise.
    repeat case_match; by simplify_eq.
  - unfold get_notification. by destruct (notifs s).
Qed.

(** X24: a stored execution waits for its own commission report: along any
    sequence of events that holds neither a commission report for its
    identifier nor another execution with its identifier, the entry of the
    execution map under that identifier is as it was, in particular it is
    never dropped. *)
Theorem execution_waits_for_its_report env evs s k :
  Forall (fun ev => touches_execution k ev = false) evs ->
  executions (run env evs s) !! k = executions s !! k.
Proof.
  intros Hall. revert s. induction Hall as [|ev evs Hev _ IH]; intros s;
    [done|].
  rewrite run_cons, IH. clear IH.
  destruct (is_commission ev) eqn:Hc.
  - destruct ev as [| | |cr| | | | | |]; try discriminate. simpl in Hev.
    apply String.eqb_neq in Hev. unfold step; simpl.
    unfold push_commissionreport, try_except.
    destruct (reconcile env cr s) as [[] s1|e s1] eqn:Hr; simpl.
    + apply reconcile_returns in Hr as (? & ? & ? & ? & ? & _ & _ & _ & Hs1).
      cbv zeta in Hs1. destruct Hs1 as (_ & -> & _).
      by rewrite lookup_delete_ne.
    + apply reconcile_raises_tables in Hr as ([-> | ->] & _); [done|].
      by rewrite lookup_delete_ne.
  - by apply step_frame.
Qed.

Lemma execution_waits_for_its_report_witness :
  let s := push_execution (lot "e1" 10 10) (tracking Accepted) in
  let evs := [OrderStatus (status_msg 7 FILLED 20);
              ExecDetails (lot "e2" 10 20);
              CommissionRep (lot_report "e2"); PortUpdate;
              OrderError {| err_id := Some 7; errorCode := 202 |}] in
  Forall (fun ev => touches_execution "e1" ev = false) evs
  /\ executions (run sample_env evs s) !! "e1"%string = Some (lot "e1" 10 10).
Proof.
  intros s evs.
  assert (H : Forall (fun ev => touches_execution "e1" ev = false) evs)
    by (repeat constructor).
  exact (conj H (execution_waits_for_its_report sample_env evs s "e1" H)).
Defined.

(** X25: positions move with commission reports only, and a commission
    report moves at most the position of the instrument of the order its
    execution belongs to. *)
Theorem positions_move_with_reports_only env s ev :
  positions (step env s ev) = positions s
  \/ exists cr ex order p,
       ev = CommissionRep cr
       /\ executions s !! cr_execId cr = Some ex
       /\ orderbyid s !! ex_orderId ex = Some order
       /\ positions (step env s ev)
          = <[tradecontract (data order) := p]> (positions s).
Proof.
  destruct (is_commission ev) eqn:Hc; [|left; by apply step_frame].
  destruct ev as [| | |cr| | | | | |]; try discriminate.
  unfold step; simpl. unfold push_commissionreport, try_except.
  destruct (reconcile env cr s) as [[] s1|e s1] eqn:Hr; simpl.
  - apply reconcile_returns in Hr
      as (ex & order & ostatus & b & p & Hex & Ho & _ & Hs1).
    cbv zeta in Hs1. destruct Hs1 as (_ & _ & _ & _ & _ & _ & Hp & _).
    right. eauto 10.
  - apply reconcile_raises_positions in Hr
      as [Hp|(ex & order & p & Hex & Ho & Hp)]; [by left|].
    right. eauto 10.
Qed.


